(** * gimli: a shallow embedding of the chaos-experiment runner

    The development follows the Go packages of the repository:
    - [domain]   : the experiment configuration and its validation
                   (domain/models.go);
    - [saboteur] : the provider interface and its Fly.io implementation
                   (saboteur/fly_saboteur.go);
    - [runner]   : the orchestrator, the steady-state validator, the probe
                   executor and the scenario loop (package runner).

    Go values are modelled as the code has them: [string] for strings, [Z]
    for [int] and [time.Duration] (nanoseconds), [option] for a pointer that
    may be nil, [gmap string string] for [map[string]string], lists for
    slices.  A Go [error] result is an [option error]: [None] is [nil]. *)

From stdpp Require Import base option list strings gmap.
From Stdlib Require Import ZArith Lia.

Local Open Scope Z_scope.
Local Open Scope string_scope.
Local Open Scope list_scope.

(** ** Go errors

    One constructor per [fmt.Errorf] call site of the repository; a [%w] or
    [%v] argument becomes a sub-term, so that wrapping stays observable.
    [ErrExternal] stands for an error value produced by a library outside
    the repository (net/http, encoding/json). *)

#[warnings="-register-all"]
Inductive error : Type :=
  | ErrExternal (msg : string)
  (* domain/models.go *)
  | ErrExperimentNameRequired
  | ErrAtLeastOneProbe
  | ErrProbeIndex (i : nat) (e : error)
  | ErrScenario (e : error)
  | ErrProbeNameRequired
  | ErrOnlyHTTPProbe
  | ErrHTTPConfigRequired
  | ErrHTTPURLRequired
  | ErrOnlyRestartRandom
  | ErrAppSelectorRequired
  | ErrPositiveDuration
  | ErrPositiveInterval
  | ErrIntervalGreater
  (* saboteur/fly_saboteur.go and executeProbe *)
  | ErrCreatingRequest (e : error)
  | ErrExecutingRequest (e : error)
  | ErrUnexpectedStatusCode (code : Z) (body : string)
  | ErrDecodingResponse (e : error)
  | ErrNoEligibleTargets (app : string)
  (* package runner *)
  | ErrSteadyStateValidation (e : error)
  | ErrScenarioExecution (e : error)
  | ErrSteadyStateAfterChaos (e : error)
  | ErrProbeFailed (name : string) (e : error)
  | ErrProbesFailed (es : list error)
  | ErrUnsupportedProbeType (ty : string)
  | ErrHTTPConfigMissing
  | ErrUnexpectedStatus (got want : Z)
  | ErrListingTargets (e : error)
  | ErrSteadyStateLost (e : error)
  | ErrUnsupportedScenarioType (ty : string)
  | ErrNoTargetsAvailable
  | ErrRestartingMachine (id : string) (e : error).

(** [time.Second], in nanoseconds. *)
Definition Second : Z := 1000000000.

(** ** Package domain *)

Module domain.

Record HTTPProbe : Type := mkHTTPProbe {
  URL : string;
  Method : string;
  ExpectedStatus : Z;
  Headers : gmap string string
}.

Record Probe : Type := mkProbe {
  Name : string;
  Type_ : string;
  HTTP : option HTTPProbe;
  Timeout : Z
}.

Record Selector : Type := mkSelector { App : string }.

Record Scenario : Type := mkScenario {
  SType : string;
  Selector_ : Selector;
  Duration : Z;
  Interval : Z
}.

Record SteadyState : Type := mkSteadyState { Probes : list Probe }.

Record Experiment : Type := mkExperiment {
  EName : string;
  Description : string;
  SteadyState_ : SteadyState;
  Scenario_ : Scenario
}.

(** [(p *Probe) Validate]: the receiver is mutated in place, so the model
    returns the receiver as the call leaves it.  Nothing is written before
    the last check has passed. *)
Definition Probe_Validate (p : Probe) : option error * Probe :=
  if decide (Name p = "") then (Some ErrProbeNameRequired, p)
  else if decide (Type_ p ≠ "http") then (Some ErrOnlyHTTPProbe, p)
  else match HTTP p with
       | None => (Some ErrHTTPConfigRequired, p)
       | Some h =>
           if decide (URL h = "") then (Some ErrHTTPURLRequired, p)
           else
             let h1 := if decide (Method h = "")
                       then mkHTTPProbe (URL h) "GET" (ExpectedStatus h) (Headers h)
                       else h in
             let h2 := if decide (ExpectedStatus h1 = 0)
                       then mkHTTPProbe (URL h1) (Method h1) 200 (Headers h1)
                       else h1 in
             let t := if decide (Timeout p = 0) then 30 * Second else Timeout p in
             (None, mkProbe (Name p) (Type_ p) (Some h2) t)
       end.

(** [(s *Scenario) Validate] writes nothing. *)
Definition Scenario_Validate (s : Scenario) : option error :=
  if decide (SType s ≠ "restart_random") then Some ErrOnlyRestartRandom
  else if decide (App (Selector_ s) = "") then Some ErrAppSelectorRequired
  else if decide (Duration s <= 0) then Some ErrPositiveDuration
  else if decide (Interval s <= 0) then Some ErrPositiveInterval
  else if decide (Interval s > Duration s) then Some ErrIntervalGreater
  else None.

(** The loop [for i, probe := range e.SteadyState.Probes] of
    [Experiment.Validate].  [probe] is a copy of the slice element, and
    [probe.Validate()] works on that copy: what it writes through the
    pointer [probe.HTTP] lands in the [HTTPProbe] the slice element points
    to as well, what it writes to [probe.Timeout] stays in the copy.  The
    function returns the slice as the loop leaves it; [i] is the index of
    the first element of [ps]. *)
Fixpoint validateProbes (i : nat) (ps : list Probe) : option error * list Probe :=
  match ps with
  | [] => (None, [])
  | probe :: rest =>
      match Probe_Validate probe with
      | (Some err, _) => (Some (ErrProbeIndex i err), probe :: rest)
      | (None, probe') =>
          let kept := mkProbe (Name probe) (Type_ probe) (HTTP probe') (Timeout probe) in
          let '(r, rest') := validateProbes (S i) rest in
          (r, kept :: rest')
      end
  end.

(** [(e *Experiment) Validate]. *)
Definition Experiment_Validate (e : Experiment) : option error * Experiment :=
  if decide (EName e = "") then (Some ErrExperimentNameRequired, e)
  else if decide (length (Probes (SteadyState_ e)) = 0%nat) then (Some ErrAtLeastOneProbe, e)
  else
    let '(r, ps) := validateProbes 0 (Probes (SteadyState_ e)) in
    let e' := mkExperiment (EName e) (Description e) (mkSteadyState ps) (Scenario_ e) in
    match r with
    | Some err => (Some err, e')
    | None =>
        match Scenario_Validate (Scenario_ e) with
        | Some err => (Some (ErrScenario err), e')
        | None => (None, e')
        end
    end.

End domain.

(** ** The world outside the process

    Everything the program observes from outside is an oracle of [Env].  An
    oracle is asked at a time index, the number of events the run has
    produced so far, so that the same request may be answered differently
    as the run proceeds; requests issued concurrently by one fan-out are
    told apart by the index of the goroutine that issues them. *)

Record Request : Type := mkRequest {
  ReqMethod : string;
  ReqURL : string;
  ReqHeader : gmap string string
}.

Record Response : Type := mkResponse {
  StatusCode : Z;
  Body : string
}.

(** The pair [(resp, err)] returned by the [Do] method of [http.Client]. *)
Inductive DoResult : Type :=
  | DoErr (e : error)
  | DoResp (r : Response).

(** An element of the anonymous struct slice decoded by [ListTargets]. *)
Record Machine : Type := mkMachine {
  MID : string;
  MName : string;
  MState : string;
  MRegion : string
}.

(** Why a context's [Done] channel is closed ([ctx.Err()]): its deadline
    passed, or it was cancelled.  [durationCtx] of [executeScenario] is
    derived from the caller's context with [context.WithTimeout], so it is
    done when the scenario duration has elapsed and also as soon as the
    caller's context is cancelled, which [main] does on SIGINT and
    SIGTERM. *)
Inductive ctxErr : Type := DeadlineExceeded | Canceled.

Record Env : Type := mkEnv {
  (** [http.NewRequestWithContext method url]: the error it reports, if any *)
  newRequestErr : string -> string -> option error;
  (** [client.Do req] at a time index, from a goroutine, with the client's
      [Timeout] *)
  clientDo : nat -> nat -> Z -> Request -> DoResult;
  (** [json.NewDecoder(body).Decode(&machines)] *)
  decodeMachines : string -> error + list Machine;
  (** [rand.Intn]: the raw draw at a time index, reduced modulo the bound *)
  randDraw : nat -> nat;
  (** the goroutine scheduler: at a time index, which of the goroutines
      still running finishes next (reduced modulo their number) *)
  sched : nat -> nat -> nat;
  (** the [select] of the scenario loop: how many times [ticker.C] is
      received from before [durationCtx.Done()] is, and why that context is
      done at that moment.  The duration is finite, so it is done at some
      point. *)
  ticksBeforeDone : nat;
  doneCause : ctxErr
}.

(** ** Package saboteur *)

Module saboteur.

Record Target : Type := mkTarget {
  ID : string;
  TName : string;
  State : string;
  Region : string;
  Metadata : gmap string string
}.

(** The [Saboteur] interface.  Each method takes the time index of the
    call; [ListTargets] returns the Go pair [([]Target, error)]. *)
Class Saboteur (Sab : Type) : Type := {
  ListTargets : Sab -> nat -> string -> gmap string string -> list Target * option error;
  RestartMachine : Sab -> nat -> string -> string -> option error
}.

(** [FlySaboteur]; [httpClient] is kept as the client's [Timeout]. *)
Record FlySaboteur : Type := mkFlySaboteur {
  apiToken : string;
  httpClientTimeout : Z;
  baseURL : string
}.

Definition StatusOK : Z := 200.
Definition StatusAccepted : Z := 202.

Definition authHeaders (f : FlySaboteur) : gmap string string :=
  <["Content-Type" := "application/json"]>
    (<["Authorization" := "Bearer " +:+ apiToken f]> ∅).

(** The loop of [ListTargets] over the decoded machines. *)
Fixpoint eligible (machines : list Machine) : list Target :=
  match machines with
  | [] => []
  | machine :: rest =>
      if decide (MState machine ≠ "started" ∧ MState machine ≠ "running")
      then eligible rest
      else mkTarget (MID machine) (MName machine) (MState machine) (MRegion machine) ∅
           :: eligible rest
  end.

(** [fmt.Sprintf("%s/apps/%s/machines", f.baseURL, app)] *)
Definition machinesURL (f : FlySaboteur) (app : string) : string :=
  baseURL f +:+ "/apps/" +:+ app +:+ "/machines".

(** [fmt.Sprintf("%s/apps/%s/machines/%s/restart", f.baseURL, app, machineID)] *)
Definition restartURL (f : FlySaboteur) (app machineID : string) : string :=
  baseURL f +:+ "/apps/" +:+ app +:+ "/machines/" +:+ machineID +:+ "/restart".

Section Fly.
Variable env : Env.

Definition Fly_ListTargets (f : FlySaboteur) (t : nat) (app : string)
    (selector : gmap string string) : list Target * option error :=
  let url := machinesURL f app in
  match newRequestErr env "GET" url with
  | Some err => ([], Some (ErrCreatingRequest err))
  | None =>
      match clientDo env t 0 (httpClientTimeout f) (mkRequest "GET" url (authHeaders f)) with
      | DoErr err => ([], Some (ErrExecutingRequest err))
      | DoResp resp =>
          if decide (StatusCode resp ≠ StatusOK)
          then ([], Some (ErrUnexpectedStatusCode (StatusCode resp) (Body resp)))
          else match decodeMachines env (Body resp) with
               | inl err => ([], Some (ErrDecodingResponse err))
               | inr machines =>
                   let targets := eligible machines in
                   if decide (length targets = 0%nat)
                   then ([], Some (ErrNoEligibleTargets app))
                   else (targets, None)
               end
      end
  end.

Definition Fly_RestartMachine (f : FlySaboteur) (t : nat) (app machineID : string)
    : option error :=
  let url := restartURL f app machineID in
  match newRequestErr env "POST" url with
  | Some err => Some (ErrCreatingRequest err)
  | None =>
      match clientDo env t 0 (httpClientTimeout f) (mkRequest "POST" url (authHeaders f)) with
      | DoErr err => Some (ErrExecutingRequest err)
      | DoResp resp =>
          if decide (StatusCode resp ≠ StatusOK ∧ StatusCode resp ≠ StatusAccepted)
          then Some (ErrUnexpectedStatusCode (StatusCode resp) (Body resp))
          else None
      end
  end.

#[export] Instance FlySaboteur_Saboteur : Saboteur FlySaboteur := {
  ListTargets := Fly_ListTargets;
  RestartMachine := Fly_RestartMachine
}.
End Fly.

End saboteur.

(** ** What a run leaves behind

    The logger, [time.Sleep], the [select] of the scenario loop and the
    calls to the saboteur are the effects of package runner.  A run is a
    state-passing computation over the list of the events produced so far,
    oldest first. *)

(** One constructor per [r.logger.Printf]/[Println] call site. *)
Inductive logmsg : Type :=
  | LogStarting (name : string)
  | LogDescription (description : string)
  | LogValidating
  | LogValidated
  | LogValidatingAfterChaos
  | LogMaintained
  | LogCompleted
  | LogProbePassed (name : string)
  | LogExecuting (ty : string) (duration interval : Z)
  | LogFound (n : nat)
  | LogDurationCompleted (attackCount : nat)
  | LogAttackFailed (err : error)
  | LogValidatingAfterAttack
  | LogAttacking (id name : string)
  | LogAttacked (id : string).

(** The case a [select] of the scenario loop takes. *)
Inductive selectCase : Type :=
  | CaseDone (why : ctxErr)
  | CaseTick.

Inductive event : Type :=
  | EvLog (m : logmsg)
  | EvListTargets (app : string) (res : list saboteur.Target * option error)
  | EvRestartMachine (app id : string) (res : option error)
  | EvSleep (d : Z)
  | EvSelect (c : selectCase).

Definition World : Type := list event.

(** State passing, with the usual bind. *)
Definition M (A : Type) : Type := World -> A * World.

Definition ret {A} (a : A) : M A := fun w => (a, w).

Definition bind {A B} (m : M A) (k : A -> M B) : M B :=
  fun w => let '(a, w1) := m w in k a w1.

Definition emit (e : event) : M unit := fun w => (tt, w ++ [e]).

Definition log (m : logmsg) : M unit := emit (EvLog m).

(** The time index of the next oracle call. *)
Definition clock : M nat := fun w => (length w, w).

Declare Scope run_scope.
Delimit Scope run_scope with run.
Notation "x <- m ;; k" := (bind m (fun x => k))
  (at level 100, m at next level, right associativity) : run_scope.
Notation "m ;;; k" := (bind m (fun _ => k))
  (at level 100, right associativity) : run_scope.

(** How a call ends: it returns its [error] result, or the process
    panics. *)
Inductive outcome : Type :=
  | Returned (err : option error)
  | Panicked (msg : string).

(** The order in which concurrently running tasks finish: the scheduler
    picks one of those still running, again and again. *)
Fixpoint completionOrder {A} (pick : nat -> nat) (step : nat) (n : nat) (running : list A)
    : list A :=
  match n, running with
  | S n', first :: _ =>
      let k := (pick step `mod` length running)%nat in
      nth k running first :: completionOrder pick (S step) n' (delete k running)
  | _, _ => []
  end.

(** ** Package runner *)

Module runner.
Import domain.
Import saboteur.

Local Open Scope run_scope.

(** The fixed pause of [executeAttack] after a successful restart:
    [2 * time.Second]. *)
Definition settleDelay : Z := 2 * Second.

(** What one tick of the scenario loop decides: go on waiting, with the
    attack counter as it now stands, or leave the loop with an error. *)
Inductive tickResult : Type :=
  | Continue (attackCount : nat)
  | Abort (err : error).

Section Runner.
Context {Sab : Type} `{!Saboteur Sab}.
Variable env : Env.

(** [Runner]; the [logger] field is the event list of the run. *)
Record Runner : Type := mkRunner { r_saboteur : Sab }.

Variable r : Runner.

(** The request [executeProbe] builds: [http.NewRequestWithContext]
    followed by one [req.Header.Set] per entry of the header map.  The
    request is what the [clientDo] oracle is asked with and nothing more:
    method and header keys are kept as configured, whereas net/http reads
    an empty method as GET and brings header keys to their canonical
    form. *)
Definition probeRequest (httpProbe : HTTPProbe) : Request :=
  mkRequest (Method httpProbe) (URL httpProbe)
    (map_fold (fun key value h => <[key := value]> h) ∅ (Headers httpProbe)).

(** [executeProbe], run at time index [t] by goroutine [slot]. *)
Definition executeProbe (t slot : nat) (probe : Probe) : option error :=
  if decide (Type_ probe ≠ "http") then Some (ErrUnsupportedProbeType (Type_ probe))
  else match HTTP probe with
       | None => Some ErrHTTPConfigMissing
       | Some httpProbe =>
           match newRequestErr env (Method httpProbe) (URL httpProbe) with
           | Some err => Some (ErrCreatingRequest err)
           | None =>
               match clientDo env t slot (Timeout probe) (probeRequest httpProbe) with
               | DoErr err => Some (ErrExecutingRequest err)
               | DoResp resp =>
                   if decide (StatusCode resp ≠ ExpectedStatus httpProbe)
                   then Some (ErrUnexpectedStatus (StatusCode resp) (ExpectedStatus httpProbe))
                   else None
               end
           end
       end.

(** The goroutine of [RunProbes] for the probe at index [slot], as it
    finishes: a failure goes to the [errors] channel, a success to the
    log. *)
Definition probeTask (t : nat) (errors : list error) (task : nat * Probe)
    : M (list error) :=
  match executeProbe t task.1 task.2 with
  | Some err => ret (errors ++ [ErrProbeFailed (Name task.2) err])
  | None => log (LogProbePassed (Name task.2)) ;;; ret errors
  end.

Fixpoint probeTasks (t : nat) (errors : list error) (tasks : list (nat * Probe))
    : M (list error) :=
  match tasks with
  | [] => ret errors
  | task :: rest => errors' <- probeTask t errors task ;; probeTasks t errors' rest
  end.

(** [RunProbes]: all goroutines are started at the time index of the
    call and finish in the order the scheduler decides; after
    [wg.Wait()] the channel holds the failures in that order. *)
Definition RunProbes (probes : list Probe) : M (option error) :=
  t <- clock ;;
  let tasks := completionOrder (sched env t) 0 (length probes) (imap pair probes) in
  probeErrors <- probeTasks t [] tasks ;;
  if decide (0 < length probeErrors)%nat
  then ret (Some (ErrProbesFailed probeErrors))
  else ret None.

(** [executeAttack]. *)
Definition executeAttack (scenario : Scenario) (targets : list Target)
    : M (option error) :=
  if decide (SType scenario ≠ "restart_random")
  then ret (Some (ErrUnsupportedScenarioType (SType scenario)))
  else match targets with
       | [] => ret (Some ErrNoTargetsAvailable)
       | first :: _ =>
           t <- clock ;;
           let target := nth (randDraw env t `mod` length targets)%nat targets first in
           log (LogAttacking (ID target) (TName target)) ;;;
           t' <- clock ;;
           let res := RestartMachine (r_saboteur r) t' (App (Selector_ scenario)) (ID target) in
           emit (EvRestartMachine (App (Selector_ scenario)) (ID target) res) ;;;
           match res with
           | Some err => ret (Some (ErrRestartingMachine (ID target) err))
           | None =>
               log (LogAttacked (ID target)) ;;;
               emit (EvSleep settleDelay) ;;;
               ret None
           end
       end.

(** The [case <-ticker.C] branch of the loop of [executeScenario]. *)
Definition scenarioTick (experiment : Experiment) (targets : list Target)
    (attackCount : nat) : M tickResult :=
  err <- executeAttack (Scenario_ experiment) targets ;;
  match err with
  | Some err => log (LogAttackFailed err) ;;; ret (Continue attackCount)
  | None =>
      log LogValidatingAfterAttack ;;;
      err <- RunProbes (Probes (SteadyState_ experiment)) ;;
      match err with
      | Some err => ret (Abort (ErrSteadyStateLost err))
      | None => ret (Continue (S attackCount))
      end
  end.

(** The [for { select { ... } }] loop of [executeScenario]; [ticks] is
    the number of times the ticker case is still going to be taken
    before the [durationCtx.Done()] case is. *)
Fixpoint scenarioLoop (ticks : nat) (experiment : Experiment) (targets : list Target)
    (attackCount : nat) : M (option error) :=
  match ticks with
  | O =>
      emit (EvSelect (CaseDone (doneCause env))) ;;;
      log (LogDurationCompleted attackCount) ;;;
      ret None
  | S ticks' =>
      emit (EvSelect CaseTick) ;;;
      res <- scenarioTick experiment targets attackCount ;;
      match res with
      | Abort err => ret (Some err)
      | Continue attackCount' => scenarioLoop ticks' experiment targets attackCount'
      end
  end.

(** The loop as a transition system on (ticks still to come, attack
    counter, events so far): [loopReaches ticks c w ticks' c' w'] when
    the loop gets from the first state to the second through ticks that
    all go on. *)
Inductive loopReaches (experiment : Experiment) (targets : list Target)
    : nat -> nat -> World -> nat -> nat -> World -> Prop :=
  | reach_here ticks c w : loopReaches experiment targets ticks c w ticks c w
  | reach_tick ticks c w c1 w1 ticks' c' w' :
      scenarioTick experiment targets c (w ++ [EvSelect CaseTick]) = (Continue c1, w1) ->
      loopReaches experiment targets ticks c1 w1 ticks' c' w' ->
      loopReaches experiment targets (S ticks) c w ticks' c' w'.

(** [executeScenario].  The selector passed to [ListTargets] is the nil
    map; [time.NewTicker] panics on a non-positive interval. *)
Definition executeScenario (experiment : Experiment) : M outcome :=
  let scenario := Scenario_ experiment in
  log (LogExecuting (SType scenario) (Duration scenario) (Interval scenario)) ;;;
  t <- clock ;;
  let res := ListTargets (r_saboteur r) t (App (Selector_ scenario)) ∅ in
  emit (EvListTargets (App (Selector_ scenario)) res) ;;;
  match res.2 with
  | Some err => ret (Returned (Some (ErrListingTargets err)))
  | None =>
      let targets := res.1 in
      log (LogFound (length targets)) ;;;
      if decide (Interval scenario <= 0)
      then ret (Panicked "non-positive interval for NewTicker")
      else
        err <- scenarioLoop (ticksBeforeDone env) experiment targets 0 ;;
        ret (Returned err)
  end.

(** [RunExperiment]. *)
Definition RunExperiment (experiment : Experiment) : M outcome :=
  log (LogStarting (EName experiment)) ;;;
  log (LogDescription (Description experiment)) ;;;
  log LogValidating ;;;
  err <- RunProbes (Probes (SteadyState_ experiment)) ;;
  match err with
  | Some err => ret (Returned (Some (ErrSteadyStateValidation err)))
  | None =>
      log LogValidated ;;;
      res <- executeScenario experiment ;;
      match res with
      | Panicked msg => ret (Panicked msg)
      | Returned (Some err) => ret (Returned (Some (ErrScenarioExecution err)))
      | Returned None =>
          log LogValidatingAfterChaos ;;;
          err <- RunProbes (Probes (SteadyState_ experiment)) ;;
          match err with
          | Some err => ret (Returned (Some (ErrSteadyStateAfterChaos err)))
          | None =>
              log LogMaintained ;;;
              log LogCompleted ;;;
              ret (Returned None)
          end
      end
  end.

End Runner.

Global Arguments Runner : clear implicits.

End runner.

(** ** Observations on runs *)

Module observe.
Import domain saboteur runner.

(** A computation only appends events, all of them in [P]. *)
Definition emitsOnly {A} (P : event -> Prop) (m : M A) : Prop :=
  forall w, exists added, (m w).2 = w ++ added /\ Forall P added.

Definition isProbePassed (ev : event) : bool :=
  match ev with EvLog (LogProbePassed _) => true | _ => false end.

(** The events only [executeScenario] and what it calls produce, the
    post-attack [RunProbes] apart. *)
Definition isScenarioEvent (ev : event) : bool :=
  match ev with
  | EvLog (LogExecuting _ _ _) | EvLog (LogFound _) | EvLog (LogDurationCompleted _)
  | EvLog (LogAttackFailed _) | EvLog LogValidatingAfterAttack
  | EvLog (LogAttacking _ _) | EvLog (LogAttacked _) => true
  | EvLog _ => false
  | EvListTargets _ _ | EvRestartMachine _ _ _ | EvSleep _ | EvSelect _ => true
  end.

(** The events one tick of the scenario loop can produce. *)
Definition isTickEvent (ev : event) : bool :=
  match ev with
  | EvLog (LogAttacking _ _) | EvLog (LogAttacked _) | EvLog (LogAttackFailed _)
  | EvLog LogValidatingAfterAttack | EvLog (LogProbePassed _)
  | EvRestartMachine _ _ _ | EvSleep _ => true
  | _ => false
  end.

(** The [select] of the scenario loop took the [durationCtx.Done()]
    case. *)
Definition isDone (ev : event) : bool :=
  match ev with EvSelect (CaseDone _) => true | _ => false end.

(** A call of [RestartMachine], whatever it returned. *)
Definition isAttack (ev : event) : bool :=
  match ev with EvRestartMachine _ _ _ => true | _ => false end.

(** Total time spent in [time.Sleep]. *)
Fixpoint sleptFor (w : World) : Z :=
  match w with
  | [] => 0
  | EvSleep d :: w' => d + sleptFor w'
  | _ :: w' => sleptFor w'
  end.

(** What the goroutine for [task] contributes to the [errors] channel and
    to the log. *)
Definition probeFailure (env : Env) (t : nat) (task : nat * Probe) : list error :=
  match executeProbe env t task.1 task.2 with
  | Some err => [ErrProbeFailed (Name task.2) err]
  | None => []
  end.

Definition probePass (env : Env) (t : nat) (task : nat * Probe) : list event :=
  match executeProbe env t task.1 task.2 with
  | Some _ => []
  | None => [EvLog (LogProbePassed (Name task.2))]
  end.

End observe.

(** ** Concrete runs

    An environment in which every request is well formed and answered: a
    probe request with [probeStatus] at the time index it is sent, a POST
    (the restart call of [FlySaboteur]) with [restartStatus], the machine
    listing with 200 and a body that decodes to [machines]. *)

Module sample.
Import domain saboteur runner.

Definition probeURL : string := "http://svc.internal/health".

Definition sampleEnv (probeStatus : nat -> Z) (restartStatus : Z)
    (machines : list Machine) (ticks : nat) (cause : ctxErr) : Env :=
  {| newRequestErr := fun _ _ => None;
     clientDo := fun t _ _ req =>
       DoResp (mkResponse
         (if decide (ReqMethod req = "POST") then restartStatus
          else if decide (ReqURL req = probeURL) then probeStatus t
          else 200) "");
     decodeMachines := fun _ => inr machines;
     randDraw := fun t => t;
     sched := fun t step => (t + step)%nat;
     ticksBeforeDone := ticks;
     doneCause := cause |}.

Definition fly : FlySaboteur :=
  mkFlySaboteur "token" (30 * Second) "https://api.machines.dev/v1".

Definition web1 : Machine := mkMachine "m1" "web-1" "started" "ams".
Definition web2 : Machine := mkMachine "m2" "web-2" "stopped" "fra".

Definition health : Probe :=
  mkProbe "health" "http" (Some (mkHTTPProbe probeURL "GET" 200 ∅)) (5 * Second).
Definition ready : Probe :=
  mkProbe "ready" "http" (Some (mkHTTPProbe probeURL "GET" 204 ∅)) (5 * Second).
Definition ping : Probe :=
  mkProbe "ping" "tcp" None (5 * Second).

Definition restartRandom : Scenario :=
  mkScenario "restart_random" (mkSelector "shop") (10 * Second) (3 * Second).
Definition killAll : Scenario :=
  mkScenario "kill_all" (mkSelector "shop") (10 * Second) (3 * Second).

Definition experiment : Experiment :=
  mkExperiment "restart-web" "restart one machine" (mkSteadyState [health]) restartRandom.
Definition unsupported : Experiment :=
  mkExperiment "kill-web" "unknown scenario kind" (mkSteadyState [health]) killAll.

Definition always (code : Z) : nat -> Z := fun _ => code.
Definition until (t0 : nat) : nat -> Z := fun t => if decide (t < t0)%nat then 200 else 500.

(** Runs of the Fly.io saboteur in a sample environment. *)
Definition run (env : Env) (e : Experiment) : outcome * World :=
  @RunExperiment FlySaboteur (FlySaboteur_Saboteur env) env (mkRunner fly) e [].

Definition runScenario (env : Env) (e : Experiment) : outcome * World :=
  @executeScenario FlySaboteur (FlySaboteur_Saboteur env) env (mkRunner fly) e [].

(** What net/http reports for a request whose context has passed its
    deadline. *)
Definition deadlineExceeded : error := ErrExternal "context deadline exceeded".

(** [env], with the deadline of the context the probes are sent on passed
    from time index [t0] on: their requests then fail without an answer. *)
Definition expiredFrom (t0 : nat) (env : Env) : Env :=
  {| newRequestErr := newRequestErr env;
     clientDo := fun t slot timeout req =>
       if decide (ReqURL req = probeURL)
       then (if decide (t < t0)%nat then clientDo env t slot timeout req
             else DoErr deadlineExceeded)
       else clientDo env t slot timeout req;
     decodeMachines := decodeMachines env;
     randDraw := randDraw env;
     sched := sched env;
     ticksBeforeDone := ticksBeforeDone env;
     doneCause := doneCause env |}.

End sample.

(** ** Start-up

    The constructor of the Fly.io saboteur and the configuration loader of
    package main.  What they read from outside is a parameter: [getenv] is
    [os.Getenv], [readFile] is [os.ReadFile], [unmarshal] is
    [yaml.Unmarshal] into a zero [domain.Experiment]. *)

(** The errors made by [NewFlySaboteur] and [loadExperiment]. *)
Inductive setupError : Type :=
  | ErrTokenRequired
  | ErrReadingFile (e : error)
  | ErrParsingYAML (e : error)
  | ErrValidatingConfiguration (e : error).

Module startup.
Import domain saboteur.

(** [NewFlySaboteur], returning the Go pair of a [FlySaboteur] pointer and
    an error. *)
Definition NewFlySaboteur (getenv : string -> string)
    : option FlySaboteur * option setupError :=
  let token := getenv "FLY_API_TOKEN" in
  if decide (token = "") then (None, Some ErrTokenRequired)
  else (Some (mkFlySaboteur token (30 * Second) "https://api.machines.dev/v1"), None).

(** [loadExperiment], returning the Go pair of an [Experiment] pointer and
    an error. *)
Definition loadExperiment (readFile : string -> error + string)
    (unmarshal : string -> error + Experiment) (filename : string)
    : option Experiment * option setupError :=
  match readFile filename with
  | inl err => (None, Some (ErrReadingFile err))
  | inr data =>
      match unmarshal data with
      | inl err => (None, Some (ErrParsingYAML err))
      | inr experiment =>
          match Experiment_Validate experiment with
          | (Some err, _) => (None, Some (ErrValidatingConfiguration err))
          | (None, experiment') => (Some experiment', None)
          end
      end
  end.

End startup.

(** ** Further observations *)

Module measure.
Import domain saboteur runner.

(** How many events of a kind a run has produced. *)
Definition countIf (f : event -> bool) (w : World) : nat := length (List.filter f w).

(** A call of [RestartMachine] that returned nil. *)
Definition isRestartOk (ev : event) : bool :=
  match ev with EvRestartMachine _ _ None => true | _ => false end.

Definition isListing (ev : event) : bool :=
  match ev with EvListTargets _ _ => true | _ => false end.

(** An event that is no listing and, if it is a restart call, is one for
    application [app] on a machine of [targets]. *)
Definition onListed (app : string) (targets : list Target) (ev : event) : Prop :=
  match ev with
  | EvListTargets _ _ => False
  | EvRestartMachine a id _ => a = app /\ exists target, target ∈ targets /\ ID target = id
  | _ => True
  end.

(** The log line of an attack that failed for another reason than the
    restart call itself. *)
Definition isAttackSkippedLog (ev : event) : bool :=
  match ev with
  | EvLog (LogAttackFailed (ErrUnsupportedScenarioType _))
  | EvLog (LogAttackFailed ErrNoTargetsAvailable) => true
  | _ => false
  end.

(** The machines [ListTargets] keeps, and what it makes of them. *)
Definition isUp (machine : Machine) : Prop :=
  MState machine = "started" \/ MState machine = "running".

#[export] Instance isUp_dec (machine : Machine) : Decision (isUp machine) :=
  decide (MState machine = "started" \/ MState machine = "running").

Definition toTarget (machine : Machine) : Target :=
  mkTarget (MID machine) (MName machine) (MState machine) (MRegion machine) ∅.

(** The request carries the bearer token. *)
Definition authenticated (token : string) (req : Request) : bool :=
  bool_decide (ReqHeader req !! "Authorization" = Some ("Bearer " +:+ token)).

(** The request carries the bearer token and goes to the Fly Machines
    API. *)
Definition toFlyAPI (token : string) (req : Request) : bool :=
  authenticated token req
  && String.prefix "https://api.machines.dev/v1/apps/" (ReqURL req).

(** The environment in which a request outside [allowed] is never
    answered. *)
Definition guardedEnv (allowed : Request -> bool) (env : Env) : Env :=
  {| newRequestErr := newRequestErr env;
     clientDo := fun t slot timeout req =>
       if allowed req then clientDo env t slot timeout req
       else DoErr (ErrExternal "request refused");
     decodeMachines := decodeMachines env;
     randDraw := randDraw env;
     sched := sched env;
     ticksBeforeDone := ticksBeforeDone env;
     doneCause := doneCause env |}.

(** What a probe of a checked configuration looks like. *)
Definition wellFormedProbe (p : Probe) : Prop :=
  Name p ≠ "" /\ Type_ p = "http" /\ exists h, HTTP p = Some h /\ URL h ≠ "".

Definition wellFormedScenario (s : Scenario) : Prop :=
  SType s = "restart_random" /\ App (Selector_ s) ≠ ""
  /\ 0 < Interval s /\ Interval s <= Duration s.

(** The defaults of [Probe.Validate] that are written through the [HTTP]
    pointer are in place. *)
Definition defaultsApplied (p : Probe) : Prop :=
  forall h, HTTP p = Some h -> Method h ≠ "" /\ ExpectedStatus h ≠ 0.

(** An error of [RunProbes]: a non-empty list of failures, each naming a
    probe of [probes]. *)
Definition namesFailures (probes : list Probe) (err : error) : Prop :=
  exists es, err = ErrProbesFailed es /\ es ≠ []
    /\ Forall (fun e => exists p cause, p ∈ probes /\ e = ErrProbeFailed (Name p) cause) es.

(** No attack was given up before the saboteur was called. *)
Definition notSkipped (sc : Scenario) (targets : list Target) (ev : event) : Prop :=
  (SType sc = "restart_random" ->
     forall ty, ev ≠ EvLog (LogAttackFailed (ErrUnsupportedScenarioType ty)))
  /\ (targets ≠ [] -> ev ≠ EvLog (LogAttackFailed ErrNoTargetsAvailable)).

End measure.

(** * Facts *)

Import domain saboteur runner observe sample startup measure.

(** ** Event bookkeeping *)

Section Emits.
Context {A B : Type} (P : event -> Prop).

Lemma emitsOnly_ret (a : A) : emitsOnly P (ret a).
Proof. intros w. exists []. by rewrite app_nil_r. Qed.

Lemma emitsOnly_clock : emitsOnly P clock.
Proof. intros w. exists []. by rewrite app_nil_r. Qed.

Lemma emitsOnly_emit ev : P ev -> emitsOnly P (emit ev).
Proof. intros Hev w. exists [ev]. split; [reflexivity | by constructor]. Qed.

Lemma emitsOnly_bind (m : M A) (k : A -> M B) :
  emitsOnly P m -> (forall a, emitsOnly P (k a)) -> emitsOnly P (bind m k).
Proof.
  intros Hm Hk w. unfold bind.
  destruct (Hm w) as (added1 & E1 & F1). destruct (m w) as [a w1]. cbn in E1. subst w1.
  destruct (Hk a (w ++ added1)) as (added2 & E2 & F2).
  exists (added1 ++ added2). rewrite E2, app_assoc. split; [reflexivity|].
  by apply Forall_app.
Qed.

Lemma emitsOnly_weaken (Q : event -> Prop) (m : M A) :
  (forall ev, Q ev -> P ev) -> emitsOnly Q m -> emitsOnly P m.
Proof.
  intros HQP Hm w. destruct (Hm w) as (added & E & F).
  exists added. split; [exact E|]. eapply Forall_impl; eauto.
Qed.
End Emits.

Ltac emits :=
  repeat first
    [ apply emitsOnly_ret
    | apply emitsOnly_clock
    | apply emitsOnly_emit
    | apply emitsOnly_bind; [|intros ?]
    | match goal with
      | |- emitsOnly _ (match ?x with _ => _ end) => destruct x
      end ].

(** ** The steady-state validator *)

Lemma completionOrder_perm {A} (pick : nat -> nat) n : forall step (l : list A),
  length l = n -> completionOrder pick step n l ≡ₚ l.
Proof.
  induction n as [|n IH]; intros step l Hlen.
  - destruct l; [reflexivity | discriminate].
  - destruct l as [|a l]; [discriminate|].
    cbn [completionOrder].
    set (k := (pick step `mod` length (a :: l))%nat).
    assert (Hk : (k < length (a :: l))%nat).
    { apply Nat.mod_upper_bound. simpl. lia. }
    destruct (lookup_lt_is_Some_2 (a :: l) k Hk) as [x Hx].
    rewrite (nth_lookup_Some _ _ _ _ Hx).
    rewrite IH.
    + symmetry. by apply delete_Permutation.
    + rewrite length_delete; [|eauto]. rewrite Hlen. lia.
Qed.

Lemma probeTasks_spec env t tasks : forall errors w,
  probeTasks env t errors tasks w
  = (errors ++ (tasks ≫= probeFailure env t), w ++ (tasks ≫= probePass env t)).
Proof.
  induction tasks as [|task rest IH]; intros errors w.
  - simpl. by rewrite !app_nil_r.
  - cbn [probeTasks]. unfold bind at 1. unfold probeTask.
    rewrite !bind_cons. unfold probeFailure at 1, probePass at 1.
    destruct (executeProbe env t task.1 task.2) as [err|]; cbn.
    + rewrite IH. by rewrite <- app_assoc.
    + rewrite IH. by rewrite <- app_assoc.
Qed.

Lemma RunProbes_spec env probes w :
  let tasks := completionOrder (sched env (length w)) 0 (length probes) (imap pair probes) in
  RunProbes env probes w
  = (match tasks ≫= probeFailure env (length w) with
     | [] => None
     | es => Some (ErrProbesFailed es)
     end, w ++ (tasks ≫= probePass env (length w))).
Proof.
  intros tasks. unfold RunProbes, bind, clock. fold tasks.
  rewrite probeTasks_spec. cbn [app].
  destruct (tasks ≫= probeFailure env (length w)) as [|e es]; cbn.
  - reflexivity.
  - destruct (decide _) as [|Hn]; [reflexivity | cbn in Hn; lia].
Qed.

Lemma elem_of_tasks env t probes (task : nat * Probe) :
  task ∈ completionOrder (sched env t) 0 (length probes) (imap pair probes)
  <-> probes !! task.1 = Some task.2.
Proof.
  rewrite completionOrder_perm by apply length_imap.
  rewrite elem_of_lookup_imap. split.
  - intros (i & p & -> & Hp). exact Hp.
  - intros Hp. exists task.1, task.2. by destruct task.
Qed.

Lemma elem_of_probeFailure env t task e :
  e ∈ probeFailure env t task
  <-> exists cause, executeProbe env t task.1 task.2 = Some cause
                /\ e = ErrProbeFailed (Name task.2) cause.
Proof.
  unfold probeFailure. destruct (executeProbe env t task.1 task.2) as [c|].
  - rewrite list_elem_of_singleton. split.
    + intros ->. by exists c.
    + by intros (c' & [= <-] & ->).
  - split; [intros H; by apply elem_of_nil in H | by intros (? & ? & _)].
Qed.

Lemma elem_of_probePass env t task ev :
  ev ∈ probePass env t task
  <-> executeProbe env t task.1 task.2 = None /\ ev = EvLog (LogProbePassed (Name task.2)).
Proof.
  unfold probePass. destruct (executeProbe env t task.1 task.2) as [c|].
  - split; [intros H; by apply elem_of_nil in H | by intros [? _]].
  - rewrite list_elem_of_singleton. split; [by intros -> | by intros [_ ->]].
Qed.

Lemma RunProbes_emits env probes :
  emitsOnly (fun ev => isProbePassed ev = true) (RunProbes env probes).
Proof.
  intros w. rewrite RunProbes_spec. cbn [snd]. eexists; split; [reflexivity|].
  apply Forall_forall. intros ev (task & [_ ->]%elem_of_probePass & _)%list_elem_of_bind.
  reflexivity.
Qed.

(** A probe of an unsupported type fails whenever and wherever it runs. *)
Lemma executeProbe_unsupported env t slot p :
  Type_ p ≠ "http" -> executeProbe env t slot p = Some (ErrUnsupportedProbeType (Type_ p)).
Proof. intros H. unfold executeProbe. by destruct (decide _). Qed.

(** The failures on the channel are those of the failing probes. *)
Lemma elem_of_failures env t probes e :
  e ∈ completionOrder (sched env t) 0 (length probes) (imap pair probes) ≫= probeFailure env t
  <-> exists slot p cause, probes !! slot = Some p
        /\ executeProbe env t slot p = Some cause
        /\ e = ErrProbeFailed (Name p) cause.
Proof.
  rewrite list_elem_of_bind. split.
  - intros (task & (c & Hc & ->)%elem_of_probeFailure & Hin%elem_of_tasks).
    by exists task.1, task.2, c.
  - intros (slot & p & c & Hp & Hc & ->). exists (slot, p). split.
    + apply elem_of_probeFailure. by exists c.
    + by apply elem_of_tasks.
Qed.

Lemma RunProbes_nil_iff env probes w :
  (RunProbes env probes w).1 = None
  <-> forall slot p, probes !! slot = Some p -> executeProbe env (length w) slot p = None.
Proof.
  rewrite RunProbes_spec. cbn [fst].
  pose proof (elem_of_failures env (length w) probes) as Hfail.
  destruct (_ ≫= probeFailure env (length w)) as [|e0 es].
  - split; [|done]. intros _ slot p Hp.
    destruct (executeProbe env (length w) slot p) as [c|] eqn:Hc; [|reflexivity].
    exfalso. eapply (not_elem_of_nil (ErrProbeFailed (Name p) c)).
    apply Hfail. by exists slot, p, c.
  - split; [discriminate|]. intros Hall. exfalso.
    destruct (proj1 (Hfail e0)) as (slot & p & c & Hp & Hc & _); [left|].
    rewrite (Hall slot p Hp) in Hc. discriminate.
Qed.

(** C2: [RunProbes] returns nil exactly when every probe of the collection
    succeeds; when it fails, the error wraps a list holding an entry with the
    name and the error of every failing probe, and of no other; and every
    probe that succeeds is run to its end and logged, whatever the other
    probes do. *)
Theorem RunProbes_succeeds_iff_all_succeed env (probes : list Probe) (w : World) :
  let t := length w in
  let res := RunProbes env probes w in
  (res.1 = None <-> forall slot p, probes !! slot = Some p -> executeProbe env t slot p = None)
  /\ (forall err, res.1 = Some err ->
       exists es, err = ErrProbesFailed es /\
         forall e, e ∈ es <-> exists slot p cause, probes !! slot = Some p
                         /\ executeProbe env t slot p = Some cause
                         /\ e = ErrProbeFailed (Name p) cause)
  /\ (exists added, res.2 = w ++ added /\
       forall ev, ev ∈ added <-> exists slot p, probes !! slot = Some p
                             /\ executeProbe env t slot p = None
                             /\ ev = EvLog (LogProbePassed (Name p))).
Proof.
  intros t res. split; [apply RunProbes_nil_iff|]. subst res.
  rewrite RunProbes_spec. fold t. cbn [fst snd]. split.
  - intros err Herr. pose proof (elem_of_failures env t probes) as Hfail.
    destruct (_ ≫= probeFailure env t) as [|e0 es]; [discriminate|].
    injection Herr as <-. by exists (e0 :: es).
  - eexists. split; [reflexivity|].
    intros ev. rewrite list_elem_of_bind. split.
    + intros (task & [Hc ->]%elem_of_probePass & Hin%elem_of_tasks).
      by exists task.1, task.2.
    + intros (slot & p & Hp & Hc & ->). exists (slot, p). split.
      * by apply elem_of_probePass.
      * by apply elem_of_tasks.
Qed.

(** ** The runner, step by step

    The computations written out on the events, for rewriting. *)

Section Unfold.
Context {Sab : Type} `{!Saboteur Sab}.
Variable env : Env.
Variable r : Runner Sab.

Lemma executeAttack_eq sc targets w :
  executeAttack env r sc targets w =
  if decide (SType sc ≠ "restart_random")
  then (Some (ErrUnsupportedScenarioType (SType sc)), w)
  else match targets with
       | [] => (Some ErrNoTargetsAvailable, w)
       | first :: _ =>
           let target := nth (randDraw env (length w) `mod` length targets)%nat targets first in
           let app := App (Selector_ sc) in
           let w1 := w ++ [EvLog (LogAttacking (ID target) (TName target))] in
           match RestartMachine (r_saboteur r) (length w1) app (ID target) with
           | Some err =>
               (Some (ErrRestartingMachine (ID target) err),
                w ++ [EvLog (LogAttacking (ID target) (TName target));
                      EvRestartMachine app (ID target) (Some err)])
           | None =>
               (None,
                w ++ [EvLog (LogAttacking (ID target) (TName target));
                      EvRestartMachine app (ID target) None;
                      EvLog (LogAttacked (ID target));
                      EvSleep settleDelay])
           end
       end.
Proof.
  unfold executeAttack.
  destruct (decide (SType sc ≠ "restart_random")); [reflexivity|].
  destruct targets as [|first rest]; [reflexivity|].
  unfold bind, clock, log, emit, ret. cbn zeta.
  destruct (RestartMachine _ _ _ _) as [err|]; by rewrite <- ?app_assoc.
Qed.

Lemma scenarioTick_eq e targets c w :
  scenarioTick env r e targets c w =
  match executeAttack env r (Scenario_ e) targets w with
  | (Some err, w1) => (Continue c, w1 ++ [EvLog (LogAttackFailed err)])
  | (None, w1) =>
      match RunProbes env (Probes (SteadyState_ e)) (w1 ++ [EvLog LogValidatingAfterAttack]) with
      | (Some err, w2) => (Abort (ErrSteadyStateLost err), w2)
      | (None, w2) => (Continue (S c), w2)
      end
  end.
Proof.
  unfold scenarioTick, bind at 1.
  destruct (executeAttack env r (Scenario_ e) targets w) as [[err|] w1]; [reflexivity|].
  unfold bind, log, emit, ret.
  by destruct (RunProbes _ _ _) as [[err|] w2].
Qed.

Lemma scenarioLoop_done e targets c w :
  scenarioLoop env r 0 e targets c w =
  (None, w ++ [EvSelect (CaseDone (doneCause env)); EvLog (LogDurationCompleted c)]).
Proof. cbn. unfold bind, log, emit, ret. by rewrite <- app_assoc. Qed.

Lemma scenarioLoop_tick ticks e targets c w :
  scenarioLoop env r (S ticks) e targets c w =
  match scenarioTick env r e targets c (w ++ [EvSelect CaseTick]) with
  | (Abort err, w1) => (Some err, w1)
  | (Continue c1, w1) => scenarioLoop env r ticks e targets c1 w1
  end.
Proof.
  cbn [scenarioLoop]. unfold bind, emit, ret.
  by destruct (scenarioTick _ _ _ _ _ _) as [[c1|err] w1].
Qed.

Lemma executeScenario_eq e w :
  executeScenario env r e w =
  let sc := Scenario_ e in
  let app := App (Selector_ sc) in
  let w1 := w ++ [EvLog (LogExecuting (SType sc) (Duration sc) (Interval sc))] in
  let res := ListTargets (r_saboteur r) (length w1) app ∅ in
  match res.2 with
  | Some err => (Returned (Some (ErrListingTargets err)), w1 ++ [EvListTargets app res])
  | None =>
      let w2 := w1 ++ [EvListTargets app res; EvLog (LogFound (length res.1))] in
      if decide (Interval sc <= 0)
      then (Panicked "non-positive interval for NewTicker", w2)
      else let '(err, w3) := scenarioLoop env r (ticksBeforeDone env) e res.1 0 w2 in
           (Returned err, w3)
  end.
Proof.
  unfold executeScenario, bind, clock, log, emit, ret. cbn zeta.
  destruct (ListTargets _ _ _ _).2 as [err|]; [reflexivity|].
  rewrite <- !app_assoc. cbn [app].
  by destruct (decide _).
Qed.

Lemma RunExperiment_eq e w :
  RunExperiment env r e w =
  let probes := Probes (SteadyState_ e) in
  match RunProbes env probes
          (w ++ [EvLog (LogStarting (EName e)); EvLog (LogDescription (Description e));
                 EvLog LogValidating]) with
  | (Some err, w1) => (Returned (Some (ErrSteadyStateValidation err)), w1)
  | (None, w1) =>
      match executeScenario env r e (w1 ++ [EvLog LogValidated]) with
      | (Panicked msg, w2) => (Panicked msg, w2)
      | (Returned (Some err), w2) => (Returned (Some (ErrScenarioExecution err)), w2)
      | (Returned None, w2) =>
          match RunProbes env probes (w2 ++ [EvLog LogValidatingAfterChaos]) with
          | (Some err, w3) => (Returned (Some (ErrSteadyStateAfterChaos err)), w3)
          | (None, w3) => (Returned None, w3 ++ [EvLog LogMaintained; EvLog LogCompleted])
          end
      end
  end.
Proof.
  unfold RunExperiment, bind, log, emit, ret. cbn zeta.
  rewrite <- !app_assoc. cbn [app].
  destruct (RunProbes _ _ _) as [[err|] w1]; [reflexivity|].
  destruct (executeScenario _ _ _ _) as [[[err|]|msg] w2]; try reflexivity.
  destruct (RunProbes _ _ _) as [[err|] w3]; [reflexivity|].
  by rewrite <- app_assoc.
Qed.
End Unfold.

(** ** Configuration validation *)

Lemma Probe_Validate_ok_inv p :
  (Probe_Validate p).1 = None ->
  Name p ≠ "" /\ Type_ p = "http" /\ exists h, HTTP p = Some h /\ URL h ≠ "".
Proof.
  unfold Probe_Validate.
  destruct (decide (Name p = "")); [discriminate|].
  destruct (decide (Type_ p ≠ "http")) as [|Hty]; [discriminate|].
  destruct (HTTP p) as [h|]; [|discriminate].
  destruct (decide (URL h = "")); [discriminate|].
  intros _. split; [done|]. split; [|by exists h].
  by destruct (decide (Type_ p = "http")).
Qed.

Lemma validateProbes_ok_inv ps : forall i,
  (validateProbes i ps).1 = None -> forall p, p ∈ ps -> (Probe_Validate p).1 = None.
Proof.
  induction ps as [|q ps IH]; intros i Hok p Hin.
  - by apply elem_of_nil in Hin.
  - cbn [validateProbes] in Hok.
    destruct (Probe_Validate q) as [[err|] q'] eqn:Hq; [discriminate|].
    destruct (validateProbes (S i) ps) as [r rest] eqn:Hrest. cbn in Hok. subst r.
    apply elem_of_cons in Hin as [->|Hin].
    + by rewrite Hq.
    + apply (IH (S i)); [by rewrite Hrest | done].
Qed.

Lemma Experiment_Validate_ok_inv e :
  (Experiment_Validate e).1 = None ->
  Probes (SteadyState_ e) ≠ []
  /\ (forall p, p ∈ Probes (SteadyState_ e) -> (Probe_Validate p).1 = None)
  /\ Scenario_Validate (Scenario_ e) = None.
Proof.
  unfold Experiment_Validate.
  destruct (decide (EName e = "")); [discriminate|].
  destruct (decide (length (Probes (SteadyState_ e)) = 0%nat)) as [|Hlen]; [discriminate|].
  destruct (validateProbes 0 (Probes (SteadyState_ e))) as [r ps] eqn:Hps.
  destruct r as [err|]; [discriminate|].
  destruct (Scenario_Validate (Scenario_ e)) as [err|] eqn:Hsc; [discriminate|].
  intros _. split; [|split; [|reflexivity]].
  - intros Hnil. apply Hlen. by rewrite Hnil.
  - apply (validateProbes_ok_inv _ 0). by rewrite Hps.
Qed.

(** C10: on the empty collection [RunProbes] returns nil and produces
    nothing, so that an experiment without probes passes both validations of
    [RunExperiment]; only [Experiment.Validate] rejects such an experiment. *)
Theorem RunProbes_empty_succeeds :
  (forall env w, RunProbes env [] w = (None, w))
  /\ (forall name description scenario,
        (Experiment_Validate (mkExperiment name description (mkSteadyState []) scenario)).1
          ≠ None)
  /\ (forall (Sab : Type) (HS : Saboteur Sab) env (r : Runner Sab) name description scenario w err,
        let e := mkExperiment name description (mkSteadyState []) scenario in
        (RunExperiment env r e w).1 ≠ Returned (Some (ErrSteadyStateValidation err))
        /\ (RunExperiment env r e w).1 ≠ Returned (Some (ErrSteadyStateAfterChaos err))).
Proof.
  assert (Hempty : forall env w, RunProbes env [] w = (None, w)).
  { intros env w. rewrite RunProbes_spec. cbn. by rewrite app_nil_r. }
  split; [exact Hempty|]. split.
  - intros name description scenario Hok.
    by destruct (Experiment_Validate_ok_inv _ Hok) as [Hne _].
  - intros Sab HS env r name description scenario w err e.
    rewrite RunExperiment_eq. subst e. cbn [SteadyState_ Probes]. cbn zeta.
    rewrite Hempty.
    destruct (executeScenario env r _ _) as [[[err'|]|msg] w1];
      rewrite ?Hempty; cbn [fst]; split; discriminate.
Qed.

(** C9: [Probe.Validate] fails exactly when the name is empty, the type is
    not "http", the http configuration is absent or the URL is empty, and
    then leaves the probe as it was; when it succeeds, an empty method has
    become "GET", a zero expected status 200 and a zero timeout 30 seconds,
    everything else being kept; and a probe validated with its expected
    status unset passes [executeProbe] on an answer of status 200 and fails
    with the unexpected-status error on any other. *)
Theorem Probe_Validate_requirements_and_defaults (p : Probe) :
  let res := Probe_Validate p in
  (res.1 ≠ None <->
     Name p = "" \/ Type_ p ≠ "http" \/ HTTP p = None \/ exists h, HTTP p = Some h /\ URL h = "")
  /\ (res.1 ≠ None -> res.2 = p)
  /\ (res.1 = None ->
       exists h h', HTTP p = Some h /\ HTTP res.2 = Some h'
         /\ Method h' = (if decide (Method h = "") then "GET" else Method h)
         /\ ExpectedStatus h' = (if decide (ExpectedStatus h = 0) then 200 else ExpectedStatus h)
         /\ Timeout res.2 = (if decide (Timeout p = 0) then 30000000000 else Timeout p)
         /\ URL h' = URL h /\ Headers h' = Headers h
         /\ Name res.2 = Name p /\ Type_ res.2 = Type_ p
         /\ forall env t slot resp,
              ExpectedStatus h = 0 ->
              newRequestErr env (Method h') (URL h') = None ->
              clientDo env t slot (Timeout res.2) (probeRequest h') = DoResp resp ->
              executeProbe env t slot res.2
              = if decide (StatusCode resp = 200) then None
                else Some (ErrUnexpectedStatus (StatusCode resp) 200)).
Proof.
  intros res. subst res. unfold Probe_Validate.
  destruct (decide (Name p = "")) as [Hn|Hn].
  { cbn. split; [|split]; [split; [by left | discriminate] | done | discriminate]. }
  destruct (decide (Type_ p ≠ "http")) as [Ht|Ht].
  { cbn. split; [|split]; [split; [by right; left | discriminate] | done | discriminate]. }
  destruct (HTTP p) as [h|] eqn:Hh.
  2:{ cbn. split; [|split]; [split; [by right; right; left | discriminate] | done | discriminate]. }
  destruct (decide (URL h = "")) as [Hu|Hu].
  { cbn. split; [|split]; [split; [|discriminate] | done | discriminate].
    intros _. right; right; right. by exists h. }
  cbn [fst snd]. split; [|split].
  - split; [done|]. intros [?|[?|[?|(h0 & [= <-] & ?)]]]; done.
  - done.
  - intros _. eexists h, _. split; [reflexivity|]. split; [reflexivity|].
    assert (Hty : Type_ p = "http") by (by destruct (decide (Type_ p = "http"))).
    repeat split.
    + by destruct (decide (Method h = "")), (decide (ExpectedStatus _ = 0)).
    + destruct (decide (Method h = "")); cbn; by destruct (decide (ExpectedStatus h = 0)).
    + by destruct (decide (Method h = "")), (decide (ExpectedStatus _ = 0)).
    + by destruct (decide (Method h = "")), (decide (ExpectedStatus _ = 0)).
    + intros env t slot resp Hzero Hreq Hdo.
      unfold executeProbe. cbn [Type_ HTTP Timeout] in *.
      destruct (decide (Type_ p ≠ "http")); [done|].
      rewrite Hreq, Hdo.
      assert (Hst : ExpectedStatus
                (if decide (ExpectedStatus (if decide (Method h = "")
                      then mkHTTPProbe (URL h) "GET" (ExpectedStatus h) (Headers h) else h) = 0)
                 then mkHTTPProbe
                        (URL (if decide (Method h = "")
                              then mkHTTPProbe (URL h) "GET" (ExpectedStatus h) (Headers h) else h))
                        (Method (if decide (Method h = "")
                              then mkHTTPProbe (URL h) "GET" (ExpectedStatus h) (Headers h) else h))
                        200
                        (Headers (if decide (Method h = "")
                              then mkHTTPProbe (URL h) "GET" (ExpectedStatus h) (Headers h) else h))
                 else (if decide (Method h = "")
                       then mkHTTPProbe (URL h) "GET" (ExpectedStatus h) (Headers h) else h))
              = 200).
      { destruct (decide (Method h = "")); cbn; destruct (decide (ExpectedStatus h = 0)); done. }
      rewrite Hst.
      destruct (decide (StatusCode resp ≠ 200)), (decide (StatusCode resp = 200)); done.
Qed.

(** ** What each part of the runner can produce *)

Lemma tick_event_scenario_or_probe ev :
  isTickEvent ev = true -> isScenarioEvent ev = true \/ isProbePassed ev = true.
Proof. destruct ev as [[]| | | |]; cbn; auto. Qed.

Lemma tick_event_not_done ev : isTickEvent ev = true -> isDone ev = false.
Proof. by destruct ev as [[]| | | |[]]. Qed.

Section Produces.
Context {Sab : Type} `{!Saboteur Sab}.
Variable env : Env.
Variable r : Runner Sab.
Variable P : event -> Prop.
Hypothesis tick_events : forall ev, isTickEvent ev = true -> P ev.

Lemma executeAttack_emits sc targets : emitsOnly P (executeAttack env r sc targets).
Proof. unfold executeAttack, log. emits; by apply tick_events. Qed.

Lemma scenarioTick_emits e targets c : emitsOnly P (scenarioTick env r e targets c).
Proof.
  unfold scenarioTick, log.
  apply emitsOnly_bind; [apply executeAttack_emits|]. intros [err|].
  - emits. by apply tick_events.
  - apply emitsOnly_bind; [apply emitsOnly_emit; by apply tick_events|]. intros _.
    apply emitsOnly_bind; [|intros ?; emits].
    eapply emitsOnly_weaken; [|apply RunProbes_emits].
    intros [[]| | | |]; try discriminate. intros _. by apply tick_events.
Qed.
End Produces.

Section Loop.
Context {Sab : Type} `{!Saboteur Sab}.
Variable env : Env.
Variable r : Runner Sab.

(** However the loop ends, what it has produced tells how: it returns
    nil right after taking the done case, which it takes at most once and
    last; it returns an error, a lost steady state, without ever taking
    it. *)
Lemma scenarioLoop_exits e targets ticks : forall c w,
  exists added, (scenarioLoop env r ticks e targets c w).2 = w ++ added /\
    match (scenarioLoop env r ticks e targets c w).1 with
    | None =>
        exists before n,
          added = before ++ [EvSelect (CaseDone (doneCause env)); EvLog (LogDurationCompleted n)]
          /\ Forall (fun ev => isDone ev = false) before
    | Some err =>
        (exists cause, err = ErrSteadyStateLost cause)
        /\ Forall (fun ev => isDone ev = false) added
    end.
Proof.
  induction ticks as [|ticks IH]; intros c w.
  - rewrite scenarioLoop_done. cbn [fst snd]. eexists; split; [reflexivity|].
    by exists [], c.
  - rewrite scenarioLoop_tick.
    destruct (scenarioTick_emits env r (fun ev => isDone ev = false) tick_event_not_done
                e targets c (w ++ [EvSelect CaseTick])) as (added1 & E1 & F1).
    pose proof (scenarioTick_eq env r e targets c (w ++ [EvSelect CaseTick])) as Htick.
    destruct (scenarioTick env r e targets c (w ++ [EvSelect CaseTick])) as [[c1|err] w1].
    + cbn [snd] in E1. subst w1.
      destruct (IH c1 ((w ++ [EvSelect CaseTick]) ++ added1)) as (added2 & E2 & H2).
      exists (EvSelect CaseTick :: added1 ++ added2).
      split; [rewrite E2; by rewrite <- !app_assoc|].
      destruct (scenarioLoop env r ticks e targets c1 _).1 as [err|].
      * destruct H2 as [Herr F2]. split; [exact Herr|].
        constructor; [reflexivity | by apply Forall_app].
      * destruct H2 as (before & n & -> & F2).
        exists (EvSelect CaseTick :: added1 ++ before), n.
        split; [by rewrite app_comm_cons, app_assoc|].
        constructor; [reflexivity | by apply Forall_app].
    + cbn [fst snd] in *. subst w1.
      exists (EvSelect CaseTick :: added1).
      split; [by rewrite <- app_assoc|]. split.
      * destruct (executeAttack env r (Scenario_ e) targets _) as [[?|] ?]; [discriminate|].
        destruct (RunProbes env _ _) as [[cause|] ?]; [|discriminate].
        injection Htick as -> _. by exists cause.
      * by constructor.
Qed.

Lemma scenarioLoop_emits (P : event -> Prop) e targets ticks :
  (forall ev, isTickEvent ev = true -> P ev) ->
  (forall c, P (EvSelect c)) -> (forall n, P (EvLog (LogDurationCompleted n))) ->
  forall c, emitsOnly P (scenarioLoop env r ticks e targets c).
Proof.
  intros Htick Hsel Hlog. induction ticks as [|ticks IH]; intros c.
  - cbn [scenarioLoop]. unfold log. emits; auto.
  - cbn [scenarioLoop].
    apply emitsOnly_bind; [by apply emitsOnly_emit|]. intros _.
    apply emitsOnly_bind; [by apply scenarioTick_emits|]. intros [c1|err]; [apply IH|emits].
Qed.

Lemma executeScenario_emits e :
  emitsOnly (fun ev => isScenarioEvent ev = true \/ isProbePassed ev = true)
    (executeScenario env r e).
Proof.
  unfold executeScenario, log. cbn zeta.
  apply emitsOnly_bind; [apply emitsOnly_emit; by left|]. intros _.
  apply emitsOnly_bind; [apply emitsOnly_clock|]. intros t.
  apply emitsOnly_bind; [apply emitsOnly_emit; by left|]. intros _.
  destruct (ListTargets _ _ _ _).2; [apply emitsOnly_ret|].
  apply emitsOnly_bind; [apply emitsOnly_emit; by left|]. intros _.
  destruct (decide _); [apply emitsOnly_ret|].
  apply emitsOnly_bind; [|intros ?; apply emitsOnly_ret].
  apply scenarioLoop_emits; [apply tick_event_scenario_or_probe | by left | by left].
Qed.

Lemma loopReaches_result e targets ticks c w ticks' c' w' :
  loopReaches env r e targets ticks c w ticks' c' w' ->
  scenarioLoop env r ticks e targets c w = scenarioLoop env r ticks' e targets c' w'.
Proof.
  induction 1 as [|ticks c w c1 w1 ticks' c' w' Htick _ IH]; [reflexivity|].
  by rewrite scenarioLoop_tick, Htick.
Qed.
End Loop.

(** ** The orchestrator *)

(** C1: [RunExperiment] runs its three steps in sequence, each gating the
    next.  When the first validation fails it returns that error and has
    produced no event of the scenario; when the scenario returns an error it
    returns that error and has not announced, let alone run, the second
    validation; when the scenario returns nil the steady state is validated
    once more, and the experiment fails if that validation fails although
    the scenario completed, and succeeds otherwise. *)
Theorem RunExperiment_steps_gate_each_other {Sab : Type} {HS : Saboteur Sab}
    env (r : Runner Sab) (e : Experiment) (w : World) :
  let probes := Probes (SteadyState_ e) in
  let pre := RunProbes env probes
               (w ++ [EvLog (LogStarting (EName e)); EvLog (LogDescription (Description e));
                      EvLog LogValidating]) in
  let scen := executeScenario env r e (pre.2 ++ [EvLog LogValidated]) in
  let post := RunProbes env probes (scen.2 ++ [EvLog LogValidatingAfterChaos]) in
  let res := RunExperiment env r e w in
  (forall err, pre.1 = Some err ->
     res = (Returned (Some (ErrSteadyStateValidation err)), pre.2)
     /\ exists added, res.2 = w ++ added /\ Forall (fun ev => isScenarioEvent ev = false) added)
  /\ (pre.1 = None -> forall err, scen.1 = Returned (Some err) ->
     res = (Returned (Some (ErrScenarioExecution err)), scen.2)
     /\ exists added, res.2 = w ++ added /\ EvLog LogValidatingAfterChaos ∉ added)
  /\ (pre.1 = None -> scen.1 = Returned None ->
     (forall err, post.1 = Some err ->
        res = (Returned (Some (ErrSteadyStateAfterChaos err)), post.2))
     /\ (post.1 = None ->
        res = (Returned None, post.2 ++ [EvLog LogMaintained; EvLog LogCompleted])))
  /\ (res.1 = Returned None <-> pre.1 = None /\ scen.1 = Returned None /\ post.1 = None).
Proof.
  intros probes pre scen post res. subst res post scen pre.
  rewrite RunExperiment_eq. cbn zeta. fold probes.
  set (w0 := w ++ [EvLog (LogStarting (EName e)); EvLog (LogDescription (Description e));
                   EvLog LogValidating]).
  destruct (RunProbes_emits env probes w0) as (added1 & E1 & F1).
  destruct (RunProbes env probes w0) as [[err1|] w1]; cbn [fst snd] in *.
  { split; [|split; [|split]].
    - intros err [= <-]. split; [reflexivity|]. subst w1 w0.
      eexists. split; [by rewrite <- app_assoc|].
      repeat (constructor; [reflexivity|]).
      eapply Forall_impl; [exact F1|]. by intros [[]| | | |].
    - discriminate.
    - discriminate.
    - split; [discriminate | by intros [? _]]. }
  destruct (executeScenario_emits env r e (w1 ++ [EvLog LogValidated]))
    as (added2 & E2 & F2).
  destruct (executeScenario env r e (w1 ++ [EvLog LogValidated])) as [[[err2|]|msg] w2];
    cbn [fst snd] in *.
  - split; [|split; [|split]].
    + discriminate.
    + intros _ err [= <-]. split; [reflexivity|]. subst w2 w1 w0.
      eexists. split; [by rewrite <- !app_assoc|].
      intros Hin.
      assert (Hno : Forall (fun ev => ev ≠ EvLog LogValidatingAfterChaos)
                ([EvLog (LogStarting (EName e)); EvLog (LogDescription (Description e));
                  EvLog LogValidating] ++ added1 ++ [EvLog LogValidated] ++ added2)).
      { repeat first [ apply Forall_app; split | apply Forall_cons; split
                     | apply Forall_nil_2 ]; try discriminate.
        - eapply Forall_impl; [exact F1|]. by intros ev Hev ->.
        - eapply Forall_impl; [exact F2|]. by intros ev [Hev|Hev] ->. }
      eapply Forall_forall in Hno; [|exact Hin]. done.
    + discriminate.
    + split; [discriminate | by intros (_ & ? & _)].
  - destruct (RunProbes env probes (w2 ++ [EvLog LogValidatingAfterChaos])) as [[err3|] w3];
      cbn [fst snd].
    + split; [|split; [|split]].
      * discriminate.
      * discriminate.
      * intros _ _. split; [by intros err [= <-] | discriminate].
      * split; [discriminate | by intros (_ & _ & ?)].
    + split; [|split; [|split]].
      * discriminate.
      * discriminate.
      * intros _ _. split; [discriminate | done].
      * done.
  - split; [|split; [|split]].
    + discriminate.
    + discriminate.
    + discriminate.
    + split; [discriminate | by intros (_ & ? & _)].
Qed.


Lemma RunExperiment_steps_gate_each_other_witness :
  (run (sampleEnv (always 500) 200 [web1] 1 DeadlineExceeded) experiment).1
    = Returned (Some (ErrSteadyStateValidation
        (ErrProbesFailed [ErrProbeFailed "health" (ErrUnexpectedStatus 500 200)])))
  /\ (run (sampleEnv (always 200) 200 [web2] 1 DeadlineExceeded) experiment).1
    = Returned (Some (ErrScenarioExecution (ErrListingTargets (ErrNoEligibleTargets "shop"))))
  /\ (run (sampleEnv (until 10) 200 [web1] 0 DeadlineExceeded) experiment).1
    = Returned (Some (ErrSteadyStateAfterChaos
        (ErrProbesFailed [ErrProbeFailed "health" (ErrUnexpectedStatus 500 200)])))
  /\ (run (sampleEnv (always 200) 200 [web1] 1 DeadlineExceeded) experiment).1
    = Returned None.
Proof.
  unfold run. split; [|split; [|split]].
  - refine (f_equal fst (proj1 (proj1 (RunExperiment_steps_gate_each_other _ _ _ _) _ _))).
    vm_compute. reflexivity.
  - refine (f_equal fst (proj1 (proj1 (proj2 (RunExperiment_steps_gate_each_other _ _ _ _))
              _ _ _))); vm_compute; reflexivity.
  - refine (f_equal fst (proj1 (proj1 (proj2 (proj2
              (RunExperiment_steps_gate_each_other _ _ _ _))) _ _) _ _));
      vm_compute; reflexivity.
  - apply (proj2 (proj2 (proj2 (proj2 (RunExperiment_steps_gate_each_other _ _ _ _))))).
    vm_compute. repeat split.
Defined.

(** ** The scenario loop *)

(** Membership in an explicit list of events, refuted constructor by
    constructor; what is left is membership in an unknown part. *)
Ltac elem_cases Hin :=
  repeat match type of Hin with
         | _ ∈ _ ++ _ => apply elem_of_app in Hin as [Hin|Hin]
         | _ ∈ _ :: _ => apply elem_of_cons in Hin as [Hin|Hin]; [discriminate|]
         | _ ∈ [] => by apply elem_of_nil in Hin
         end.

(** C3: the loop of [executeScenario] does not keep to "deadline expiry is
    the only clean exit, and always one", in two runs of the sample
    experiment (duration 10 s, interval 3 s, a healthy application).
    In the first nothing interferes: the third tick fires at 9 s, the
    restart succeeds, the settle sleep, which no context can interrupt,
    runs past the deadline, and the requests of the validation that
    follows, sent on [durationCtx], fail for the passed deadline; the loop
    returns the lost-steady-state error after three successful attacks and
    never takes the done case.  In the second the caller's context is
    cancelled after the first tick: the loop takes the done case, logs the
    duration as completed and returns nil, although the duration has not
    elapsed. *)
Theorem scenario_loop_breaks_the_deadline_rule :
  let late :=
    runScenario (expiredFrom 23 (sampleEnv (always 200) 200 [web1] 3 DeadlineExceeded))
      experiment in
  let cancelled := runScenario (sampleEnv (always 200) 200 [web1] 1 Canceled) experiment in
  (late.1 = Returned (Some (ErrSteadyStateLost
              (ErrProbesFailed
                 [ErrProbeFailed "health" (ErrExecutingRequest deadlineExceeded)])))
   /\ Forall (fun ev => isDone ev = false) late.2
   /\ countIf isRestartOk late.2 = 3%nat
   /\ sleptFor late.2 = 3 * settleDelay
   /\ last late.2 = Some (EvLog LogValidatingAfterAttack))
  /\ (cancelled.1 = Returned None
      /\ (EvSelect (CaseDone Canceled) ∈ cancelled.2)
      /\ (EvSelect (CaseDone DeadlineExceeded) ∉ cancelled.2)
      /\ last cancelled.2 = Some (EvLog (LogDurationCompleted 1))).
Proof.
  intros late cancelled. vm_compute in late, cancelled. subst late cancelled.
  cbn [fst snd]. split.
  - split; [reflexivity|]. split; [by repeat constructor|].
    split; [reflexivity|]. split; reflexivity.
  - split; [reflexivity|]. split; [|split; [|reflexivity]].
    + repeat first [ apply list_elem_of_here | apply list_elem_of_further ].
    + intros Hin. elem_cases Hin.
Qed.

Lemma sleptFor_app w1 w2 : sleptFor (w1 ++ w2) = sleptFor w1 + sleptFor w2.
Proof.
  induction w1 as [|ev w1 IH]; [reflexivity|].
  destruct ev; simpl; rewrite IH; lia.
Qed.

(** A tick whose attack fails: the loop logs the failure and goes back to
    its [select], with the attack counter as it was. *)
Lemma failed_attack_continues {Sab : Type} {HS : Saboteur Sab} env (r : Runner Sab)
    e targets ticks c w err wa :
  executeAttack env r (Scenario_ e) targets (w ++ [EvSelect CaseTick]) = (Some err, wa) ->
  scenarioTick env r e targets c (w ++ [EvSelect CaseTick])
    = (Continue c, wa ++ [EvLog (LogAttackFailed err)])
  /\ scenarioLoop env r (S ticks) e targets c w
    = scenarioLoop env r ticks e targets c (wa ++ [EvLog (LogAttackFailed err)]).
Proof.
  intros Hatt.
  assert (Htick : scenarioTick env r e targets c (w ++ [EvSelect CaseTick])
            = (Continue c, wa ++ [EvLog (LogAttackFailed err)])).
  { by rewrite scenarioTick_eq, Hatt. }
  split; [exact Htick|]. by rewrite scenarioLoop_tick, Htick.
Qed.

(** C5: a tick on which [executeAttack] returns an error does not end the
    loop: the failure is logged, no steady-state validation is run, the
    attack counter is unchanged and the loop is back at its [select] for the
    ticks still to come; the failed attack has called [RestartMachine] at
    most once; and an attack on an empty target snapshot is such a failure,
    made without any call. *)
Theorem failed_attack_skips_to_next_tick {Sab : Type} {HS : Saboteur Sab}
    env (r : Runner Sab) (e : Experiment) (targets : list Target) (ticks c : nat) (w : World) :
  let sc := Scenario_ e in
  let att := executeAttack env r sc targets (w ++ [EvSelect CaseTick]) in
  (forall err, att.1 = Some err ->
     scenarioTick env r e targets c (w ++ [EvSelect CaseTick])
       = (Continue c, att.2 ++ [EvLog (LogAttackFailed err)])
     /\ scenarioLoop env r (S ticks) e targets c w
       = scenarioLoop env r ticks e targets c (att.2 ++ [EvLog (LogAttackFailed err)])
     /\ (att.2 = w ++ [EvSelect CaseTick]
         \/ exists id name cause,
              att.2 = w ++ [EvSelect CaseTick; EvLog (LogAttacking id name);
                            EvRestartMachine (App (Selector_ sc)) id (Some cause)]))
  /\ (targets = [] -> SType sc = "restart_random" ->
      att = (Some ErrNoTargetsAvailable, w ++ [EvSelect CaseTick])).
Proof.
  intros sc att. split.
  - intros err Herr.
    destruct att as [o wa] eqn:Hatt. cbn [fst snd] in *. subst o.
    destruct (failed_attack_continues env r e targets ticks c w err wa Hatt) as [H1 H2].
    split; [exact H1|]. split; [exact H2|].
    subst att. rewrite executeAttack_eq in Hatt. fold sc in Hatt.
    destruct (decide (SType sc ≠ "restart_random")); [left; congruence|].
    destruct targets as [|first rest]; [left; congruence|].
    cbn zeta in Hatt.
    destruct (RestartMachine _ _ _ _) as [cause|]; [|discriminate].
    right. injection Hatt as _ <-. eexists _, _, cause. by rewrite <- app_assoc.
  - intros -> Hty. subst att. rewrite executeAttack_eq.
    destruct (decide (SType sc ≠ "restart_random")); [done|reflexivity].
Qed.

Lemma failed_attack_skips_to_next_tick_witness :
  let env := sampleEnv (always 200) 500 [web1] 2 DeadlineExceeded in
  let w := [EvLog (LogFound 1)] in
  @scenarioLoop _ (FlySaboteur_Saboteur env) env (mkRunner fly) 2 experiment
     (eligible [web1]) 0 w
  = @scenarioLoop _ (FlySaboteur_Saboteur env) env (mkRunner fly) 1 experiment
     (eligible [web1]) 0
     (w ++ [EvSelect CaseTick; EvLog (LogAttacking "m1" "web-1");
            EvRestartMachine "shop" "m1" (Some (ErrUnexpectedStatusCode 500 ""));
            EvLog (LogAttackFailed
                     (ErrRestartingMachine "m1" (ErrUnexpectedStatusCode 500 "")))]).
Proof.
  intros env w.
  apply (proj1 (proj2 (proj1 (failed_attack_skips_to_next_tick (HS := FlySaboteur_Saboteur env)
           env (mkRunner fly) experiment (eligible [web1]) 1 0 w)
         (ErrRestartingMachine "m1" (ErrUnexpectedStatusCode 500 "")) eq_refl))).
Defined.



(** C4: when the validation run right after a successful injection fails,
    at whatever tick of a run of [RunExperiment], the loop returns the
    lost-steady-state error at once, the error goes up through
    [executeScenario] into [RunExperiment], which returns it wrapped, and
    the run ends there: after the attack nothing has happened but that
    validation, so no further attack, tick or validation. *)
Theorem regression_after_attack_aborts_experiment {Sab : Type} {HS : Saboteur Sab}
    env (r : Runner Sab) (e : Experiment) (w : World)
    (w1 : World) (targets : list Target) (ticks c : nat) (wk wa wv : World) (err : error) :
  let probes := Probes (SteadyState_ e) in
  let sc := Scenario_ e in
  let app := App (Selector_ sc) in
  let w2 := w1 ++ [EvLog LogValidated;
                   EvLog (LogExecuting (SType sc) (Duration sc) (Interval sc))] in
  RunProbes env probes
    (w ++ [EvLog (LogStarting (EName e)); EvLog (LogDescription (Description e));
           EvLog LogValidating]) = (None, w1) ->
  ListTargets (r_saboteur r) (length w2) app ∅ = (targets, None) ->
  0 < Interval sc ->
  loopReaches env r e targets (ticksBeforeDone env) 0
    (w2 ++ [EvListTargets app (targets, None); EvLog (LogFound (length targets))])
    (S ticks) c wk ->
  executeAttack env r sc targets (wk ++ [EvSelect CaseTick]) = (None, wa) ->
  RunProbes env probes (wa ++ [EvLog LogValidatingAfterAttack]) = (Some err, wv) ->
  scenarioLoop env r (S ticks) e targets c wk = (Some (ErrSteadyStateLost err), wv)
  /\ RunExperiment env r e w
     = (Returned (Some (ErrScenarioExecution (ErrSteadyStateLost err))), wv)
  /\ exists passed, wv = wa ++ EvLog LogValidatingAfterAttack :: passed
       /\ Forall (fun ev => isProbePassed ev = true) passed.
Proof.
  intros probes sc app w2 Hpre Hlist Hint Hreach Hatt Hval.
  assert (Hloop : scenarioLoop env r (S ticks) e targets c wk
            = (Some (ErrSteadyStateLost err), wv)).
  { rewrite scenarioLoop_tick, scenarioTick_eq. fold sc probes. by rewrite Hatt, Hval. }
  split; [exact Hloop|]. split.
  - rewrite RunExperiment_eq. cbn zeta. fold probes. rewrite Hpre.
    rewrite executeScenario_eq. cbn zeta. fold sc app.
    rewrite <- !app_assoc. cbn [List.app]. fold w2.
    rewrite Hlist. cbn [fst snd].
    destruct (decide (Interval sc <= 0)); [lia|].
    replace (w1 ++ [EvLog LogValidated;
                    EvLog (LogExecuting (SType sc) (Duration sc) (Interval sc));
                    EvListTargets app (targets, None); EvLog (LogFound (length targets))])
      with (w2 ++ [EvListTargets app (targets, None); EvLog (LogFound (length targets))])
      by (subst w2; by rewrite <- app_assoc).
    by rewrite (loopReaches_result _ _ _ _ _ _ _ _ _ _ Hreach), Hloop.
  - destruct (RunProbes_emits env probes (wa ++ [EvLog LogValidatingAfterAttack]))
      as (passed & E & F).
    rewrite Hval in E. cbn [snd] in E. exists passed.
    split; [by rewrite E, <- app_assoc | exact F].
Qed.

(** The run of the witness: the steady state holds until the validation
    after the second attack. *)
Lemma regression_after_attack_aborts_experiment_witness :
  (run (sampleEnv (until 18) 200 [web1; web2] 3 DeadlineExceeded) experiment).1
  = Returned (Some (ErrScenarioExecution (ErrSteadyStateLost
      (ErrProbesFailed [ErrProbeFailed "health" (ErrUnexpectedStatus 500 200)])))).
Proof.
  set (env := sampleEnv (until 18) 200 [web1; web2] 3 DeadlineExceeded).
  unfold run.
  refine (f_equal fst (proj1 (proj2
    (regression_after_attack_aborts_experiment (HS := FlySaboteur_Saboteur env)
       env (mkRunner fly) experiment [] _ _ 1 1 _ _ _ _ _ _ _ _ _ _)))).
  - vm_compute. reflexivity.
  - vm_compute. reflexivity.
  - vm_compute. reflexivity.
  - eapply reach_tick; [vm_compute; reflexivity | apply reach_here].
  - vm_compute. reflexivity.
  - vm_compute. reflexivity.
Defined.

(** ** The Fly.io saboteur *)

(** [ListTargets] of [FlySaboteur] never returns an empty list without an
    error. *)
Lemma Fly_ListTargets_nonempty env f t app selector :
  (Fly_ListTargets env f t app selector).2 = None ->
  (Fly_ListTargets env f t app selector).1 ≠ [].
Proof.
  unfold Fly_ListTargets. cbn zeta.
  destruct (newRequestErr env "GET" (machinesURL f app)); [discriminate|].
  destruct (clientDo env t 0 _ _) as [err|resp]; [discriminate|].
  destruct (decide (StatusCode resp ≠ StatusOK)); [discriminate|].
  destruct (decodeMachines env (Body resp)) as [err|machines]; [discriminate|].
  destruct (decide (length (eligible machines) = 0%nat)) as [|Hne]; [discriminate|].
  intros _ Hnil. cbn [fst] in Hnil. apply Hne. by rewrite Hnil.
Qed.

(** C6: when the listing of an application yields no eligible machine,
    [ListTargets] of [FlySaboteur] returns the no-eligible-targets error and
    no list, and it never returns an empty list without an error;
    [executeScenario] then returns that error, wrapped, having produced
    nothing but its opening log line and the listing call: no [select], no
    attack.  When targets are listed and an injection fails during the run,
    the loop goes on instead. *)
Theorem no_eligible_targets_is_fatal_at_entry env (f : FlySaboteur) :
  (forall t app selector,
     (Fly_ListTargets env f t app selector).2 = None ->
     (Fly_ListTargets env f t app selector).1 ≠ [])
  /\ (forall t app selector resp machines,
        newRequestErr env "GET" (machinesURL f app) = None ->
        clientDo env t 0 (httpClientTimeout f)
          (mkRequest "GET" (machinesURL f app) (authHeaders f)) = DoResp resp ->
        StatusCode resp = 200 ->
        decodeMachines env (Body resp) = inr machines ->
        eligible machines = [] ->
        Fly_ListTargets env f t app selector = ([], Some (ErrNoEligibleTargets app)))
  /\ (forall (e : Experiment) (w : World) err,
        let sc := Scenario_ e in
        let app := App (Selector_ sc) in
        Fly_ListTargets env f (S (length w)) app ∅ = ([], Some err) ->
        @executeScenario _ (FlySaboteur_Saboteur env) env (mkRunner f) e w
        = (Returned (Some (ErrListingTargets err)),
           w ++ [EvLog (LogExecuting (SType sc) (Duration sc) (Interval sc));
                 EvListTargets app ([], Some err)]))
  /\ (forall (e : Experiment) targets ticks c w err wa,
        @executeAttack _ (FlySaboteur_Saboteur env) env (mkRunner f) (Scenario_ e) targets
          (w ++ [EvSelect CaseTick]) = (Some err, wa) ->
        @scenarioLoop _ (FlySaboteur_Saboteur env) env (mkRunner f)
          (S ticks) e targets c w
        = @scenarioLoop _ (FlySaboteur_Saboteur env) env (mkRunner f)
            ticks e targets c (wa ++ [EvLog (LogAttackFailed err)])).
Proof.
  split; [apply Fly_ListTargets_nonempty|]. split; [|split].
  - intros t app selector resp machines Hreq Hdo Hst Hdec Hel.
    unfold Fly_ListTargets. cbn zeta. rewrite Hreq, Hdo.
    destruct (decide (StatusCode resp ≠ StatusOK)); [done|].
    rewrite Hdec, Hel. reflexivity.
  - intros e w err sc app Hlist.
    rewrite executeScenario_eq. cbn zeta. fold sc app.
    rewrite length_app. cbn [length r_saboteur ListTargets FlySaboteur_Saboteur].
    rewrite Nat.add_1_r, Hlist. cbn [snd]. by rewrite <- app_assoc.
  - intros e targets ticks c w err wa Hatt.
    by apply failed_attack_continues.
Qed.

Lemma no_eligible_targets_is_fatal_at_entry_witness :
  let env := sampleEnv (always 200) 200 [web2] 2 DeadlineExceeded in
  runScenario env experiment
  = (Returned (Some (ErrListingTargets (ErrNoEligibleTargets "shop"))),
     [EvLog (LogExecuting "restart_random" 10000000000 3000000000);
      EvListTargets "shop" ([], Some (ErrNoEligibleTargets "shop"))]).
Proof.
  intros env. unfold runScenario.
  apply (proj1 (proj2 (proj2 (no_eligible_targets_is_fatal_at_entry env fly))) experiment []).
  apply (proj1 (proj2 (no_eligible_targets_is_fatal_at_entry env fly))
           1%nat "shop" ∅ (mkResponse 200 "") [web2]); reflexivity.
Defined.

(** ** Unsupported kinds *)

(** C7, as the code has it.  A probe whose type is not "http" is fatal
    wherever it is met: [Probe.Validate] and [Experiment.Validate] reject
    it, and at run time [executeProbe] fails on it, so that [RunExperiment]
    returns the steady-state validation error.  A scenario whose type is not
    "restart_random" is rejected by [Scenario.Validate] and
    [Experiment.Validate]; in the scenario loop [executeAttack] returns the
    unsupported-type error without calling the saboteur, and the loop
    handles it as it does any failed attack: it logs it and goes on. *)
Theorem unsupported_kinds_fatal_where_checked :
  (forall p, Type_ p ≠ "http" -> (Probe_Validate p).1 ≠ None)
  /\ (forall e p, p ∈ Probes (SteadyState_ e) -> Type_ p ≠ "http" ->
        (Experiment_Validate e).1 ≠ None)
  /\ (forall s, SType s ≠ "restart_random" -> Scenario_Validate s = Some ErrOnlyRestartRandom)
  /\ (forall e, SType (Scenario_ e) ≠ "restart_random" -> (Experiment_Validate e).1 ≠ None)
  /\ (forall (Sab : Type) (HS : Saboteur Sab) env (r : Runner Sab) e w p,
        p ∈ Probes (SteadyState_ e) -> Type_ p ≠ "http" ->
        exists err, (RunExperiment env r e w).1 = Returned (Some (ErrSteadyStateValidation err)))
  /\ (forall (Sab : Type) (HS : Saboteur Sab) env (r : Runner Sab) e targets ticks c w,
        SType (Scenario_ e) ≠ "restart_random" ->
        executeAttack env r (Scenario_ e) targets (w ++ [EvSelect CaseTick])
          = (Some (ErrUnsupportedScenarioType (SType (Scenario_ e))), w ++ [EvSelect CaseTick])
        /\ scenarioLoop env r (S ticks) e targets c w
          = scenarioLoop env r ticks e targets c
              (w ++ [EvSelect CaseTick;
                     EvLog (LogAttackFailed (ErrUnsupportedScenarioType (SType (Scenario_ e))))])).
Proof.
  assert (Hprobe : forall p, Type_ p ≠ "http" -> (Probe_Validate p).1 ≠ None).
  { intros p Hty Hok. by destruct (Probe_Validate_ok_inv p Hok) as (_ & ? & _). }
  assert (Hscen : forall s, SType s ≠ "restart_random" ->
            Scenario_Validate s = Some ErrOnlyRestartRandom).
  { intros s Hty. unfold Scenario_Validate. by destruct (decide _). }
  split; [exact Hprobe|]. split; [|split; [exact Hscen|split; [|split]]].
  - intros e p Hin Hty Hok.
    destruct (Experiment_Validate_ok_inv e Hok) as (_ & Hall & _).
    by apply (Hprobe p Hty), Hall.
  - intros e Hty Hok.
    destruct (Experiment_Validate_ok_inv e Hok) as (_ & _ & Hsc).
    by rewrite (Hscen _ Hty) in Hsc.
  - intros Sab HS env r e w p Hin Hty.
    rewrite RunExperiment_eq. cbn zeta.
    set (w0 := w ++ _).
    pose proof (RunProbes_nil_iff env (Probes (SteadyState_ e)) w0) as Hiff.
    destruct (RunProbes env (Probes (SteadyState_ e)) w0) as [[err|] w1]; cbn [fst] in *.
    + by exists err.
    + exfalso. apply list_elem_of_lookup in Hin as [slot Hslot].
      pose proof (proj1 Hiff eq_refl slot p Hslot) as Hnone.
      by rewrite (executeProbe_unsupported _ _ _ _ Hty) in Hnone.
  - intros Sab HS env r e targets ticks c w Hty.
    assert (Hatt : executeAttack env r (Scenario_ e) targets (w ++ [EvSelect CaseTick])
              = (Some (ErrUnsupportedScenarioType (SType (Scenario_ e))),
                 w ++ [EvSelect CaseTick])).
    { rewrite executeAttack_eq. by destruct (decide _). }
    split; [exact Hatt|].
    rewrite (proj2 (failed_attack_continues env r e targets ticks c w _ _ Hatt)).
    by rewrite <- app_assoc.
Qed.

(** C7, as the claim has it, fails: an experiment whose scenario type is
    not supported runs to its end and succeeds, the unsupported-type error
    of each tick being logged and skipped. *)
Lemma unsupported_scenario_kind_is_skipped :
  let res := run (sampleEnv (always 200) 200 [web1] 2 DeadlineExceeded) unsupported in
  SType (Scenario_ unsupported) ≠ "restart_random"
  /\ EvLog (LogAttackFailed (ErrUnsupportedScenarioType "kill_all")) ∈ res.2
  /\ res.1 = Returned None.
Proof.
  intros res. vm_compute in res. subst res. cbn [fst snd].
  split; [discriminate|]. split; [|reflexivity].
  repeat first [ apply list_elem_of_here | apply list_elem_of_further ].
Qed.

Lemma unsupported_kinds_fatal_where_checked_witness :
  (Probe_Validate ping).1 ≠ None
  /\ Scenario_Validate killAll = Some ErrOnlyRestartRandom
  /\ exists err,
       (run (sampleEnv (always 200) 200 [web1] 2 DeadlineExceeded)
          (mkExperiment "tcp" "unknown probe kind" (mkSteadyState [health; ping]) restartRandom)).1
       = Returned (Some (ErrSteadyStateValidation err)).
Proof.
  split; [|split].
  - apply (proj1 unsupported_kinds_fatal_where_checked). discriminate.
  - apply (proj1 (proj2 (proj2 unsupported_kinds_fatal_where_checked))). discriminate.
  - apply (proj1 (proj2 (proj2 (proj2 (proj2 unsupported_kinds_fatal_where_checked))))
             _ _ _ _ _ _ ping).
    + repeat first [ apply list_elem_of_here | apply list_elem_of_further ].
    + discriminate.
Defined.

(** ** Runs of the validator and of the validation *)

(** Two failing probes and a passing one: both failures are on the list. *)
Lemma RunProbes_succeeds_iff_all_succeed_witness :
  exists es,
    (RunProbes (sampleEnv (always 200) 200 [web1] 1 DeadlineExceeded) [ready; health; ping] []).1
      = Some (ErrProbesFailed es)
    /\ ErrProbeFailed "ready" (ErrUnexpectedStatus 200 204) ∈ es
    /\ ErrProbeFailed "ping" (ErrUnsupportedProbeType "tcp") ∈ es.
Proof.
  set (env := sampleEnv (always 200) 200 [web1] 1 DeadlineExceeded).
  edestruct (proj1 (proj2 (RunProbes_succeeds_iff_all_succeed env [ready; health; ping] [])))
    as (es & Heq & Hes); [vm_compute; reflexivity|].
  exists es. split; [rewrite <- Heq; vm_compute; reflexivity|]. split; apply Hes.
  - exists 0%nat, ready, (ErrUnexpectedStatus 200 204). repeat split.
  - exists 2%nat, ping, (ErrUnsupportedProbeType "tcp"). repeat split.
Defined.

(** A probe that leaves method, expected status and timeout unset. *)
Lemma Probe_Validate_requirements_and_defaults_witness :
  let p := mkProbe "health" "http" (Some (mkHTTPProbe probeURL "" 0 ∅)) 0 in
  exists h', HTTP (Probe_Validate p).2 = Some h'
    /\ Method h' = "GET" /\ ExpectedStatus h' = 200
    /\ Timeout (Probe_Validate p).2 = 30000000000.
Proof.
  intros p.
  destruct (proj2 (proj2 (Probe_Validate_requirements_and_defaults p)) eq_refl)
    as (h & h' & Hh & Hh' & Hm & Hs & Ht & _).
  injection Hh as <-. exists h'. repeat split; assumption.
Defined.

(** [Experiment.Validate] hands each probe to [Probe.Validate] as a copy:
    the defaults written through the [HTTP] pointer reach the experiment,
    the default timeout does not. *)
Remark Experiment_Validate_keeps_zero_timeout :
  let p := mkProbe "health" "http" (Some (mkHTTPProbe probeURL "" 0 ∅)) 0 in
  Experiment_Validate (mkExperiment "e" "" (mkSteadyState [p]) restartRandom)
  = (None, mkExperiment "e" ""
             (mkSteadyState [mkProbe "health" "http" (Some (mkHTTPProbe probeURL "GET" 200 ∅)) 0])
             restartRandom).
Proof. reflexivity. Qed.

(** * Further facts *)

(** ** Configuration validation, in full *)

Lemma Probe_Validate_ok_shape p :
  (Probe_Validate p).1 = None ->
  exists h, HTTP p = Some h /\
    (Probe_Validate p).2
    = mkProbe (Name p) (Type_ p)
        (Some (mkHTTPProbe (URL h)
                 (if decide (Method h = "") then "GET" else Method h)
                 (if decide (ExpectedStatus h = 0) then 200 else ExpectedStatus h)
                 (Headers h)))
        (if decide (Timeout p = 0) then 30 * Second else Timeout p).
Proof.
  unfold Probe_Validate.
  destruct (decide (Name p = "")); [discriminate|].
  destruct (decide (Type_ p ≠ "http")); [discriminate|].
  destruct (HTTP p) as [h|]; [|discriminate].
  destruct (decide (URL h = "")); [discriminate|].
  intros _. exists h. split; [reflexivity|]. cbn [snd].
  destruct h as [u m s hs]. cbn.
  destruct (decide (m = "")); cbn; destruct (decide (s = 0)); reflexivity.
Qed.

Lemma Probe_Validate_ok_iff p : (Probe_Validate p).1 = None <-> wellFormedProbe p.
Proof.
  split; [apply Probe_Validate_ok_inv|].
  intros (Hn & Ht & h & Hh & Hu). unfold Probe_Validate.
  destruct (decide (Name p = "")); [done|].
  destruct (decide (Type_ p ≠ "http")); [done|].
  rewrite Hh. by destruct (decide (URL h = "")).
Qed.

Lemma Scenario_Validate_ok_iff s : Scenario_Validate s = None <-> wellFormedScenario s.
Proof.
  unfold Scenario_Validate, wellFormedScenario.
  destruct (decide (SType s ≠ "restart_random")) as [|Hty].
  { split; [discriminate | by intros [? _]]. }
  assert (SType s = "restart_random") by (by destruct (decide (SType s = "restart_random"))).
  destruct (decide (App (Selector_ s) = "")).
  { split; [discriminate | by intros (_ & ? & _)]. }
  destruct (decide (Duration s <= 0)).
  { split; [discriminate | intros (_ & _ & ? & ?); lia]. }
  destruct (decide (Interval s <= 0)).
  { split; [discriminate | intros (_ & _ & ? & ?); lia]. }
  destruct (decide (Interval s > Duration s)).
  { split; [discriminate | intros (_ & _ & ? & ?); lia]. }
  split; [intros _|done]. repeat split; [done|done|lia|lia].
Qed.

Lemma validateProbes_ok_iff ps : forall i,
  (validateProbes i ps).1 = None <-> Forall wellFormedProbe ps.
Proof.
  induction ps as [|q ps IH]; intros i.
  - split; [by constructor | done].
  - cbn [validateProbes]. rewrite Forall_cons, <- Probe_Validate_ok_iff, <- (IH (S i)).
    destruct (Probe_Validate q) as [[err|] q']; cbn [fst].
    + split; [discriminate | by intros [? _]].
    + destruct (validateProbes (S i) ps) as [r rest]. cbn [fst]. by split; [|intros [_ ?]].
Qed.

(** X1: [Experiment.Validate] accepts a configuration exactly when it has a
    name and at least one probe, every probe has a name, the type "http",
    an http block and a URL, and the scenario has the type
    "restart_random", an application and an interval that is positive and
    not longer than the duration. *)
Theorem Experiment_Validate_accepts_iff (e : Experiment) :
  (Experiment_Validate e).1 = None
  <-> EName e ≠ "" /\ Probes (SteadyState_ e) ≠ []
      /\ Forall wellFormedProbe (Probes (SteadyState_ e))
      /\ wellFormedScenario (Scenario_ e).
Proof.
  rewrite <- Scenario_Validate_ok_iff, <- (validateProbes_ok_iff _ 0).
  unfold Experiment_Validate.
  destruct (decide (EName e = "")).
  { split; [discriminate | by intros [? _]]. }
  destruct (decide (length (Probes (SteadyState_ e)) = 0%nat)) as [Hlen|Hlen].
  { split; [discriminate|]. intros (_ & Hne & _). by destruct (Probes (SteadyState_ e)). }
  assert (Probes (SteadyState_ e) ≠ []) by (intros Hnil; by rewrite Hnil in Hlen).
  destruct (validateProbes 0 (Probes (SteadyState_ e))) as [[err|] ps]; cbn [fst].
  { split; [discriminate | by intros (_ & _ & ? & _)]. }
  destruct (Scenario_Validate (Scenario_ e)) as [err|]; cbn [fst].
  - split; [discriminate | by intros (_ & _ & _ & ?)].
  - by split.
Qed.




Lemma validateProbes_keeps ps : forall i,
  Name <$> (validateProbes i ps).2 = Name <$> ps
  /\ Type_ <$> (validateProbes i ps).2 = Type_ <$> ps
  /\ Timeout <$> (validateProbes i ps).2 = Timeout <$> ps
  /\ (fun p => URL <$> HTTP p) <$> (validateProbes i ps).2 = (fun p => URL <$> HTTP p) <$> ps
  /\ (fun p => Headers <$> HTTP p) <$> (validateProbes i ps).2
     = (fun p => Headers <$> HTTP p) <$> ps.
Proof.
  induction ps as [|q ps IH]; intros i; [done|].
  cbn [validateProbes].
  pose proof (Probe_Validate_ok_shape q) as Hshape.
  destruct (Probe_Validate q) as [[err|] q']; [done|].
  destruct (Hshape eq_refl) as (h & Hh & Hq'). cbn [snd] in Hq'. subst q'.
  destruct (IH (S i)) as (H1 & H2 & H3 & H4 & H5).
  destruct (validateProbes (S i) ps) as [r rest]. cbn [snd] in *.
  rewrite !fmap_cons. cbn [Name Type_ Timeout HTTP].
  rewrite H1, H2, H3, H4, H5, Hh. done.
Qed.

(** X3: [Experiment.Validate] never changes the name, the description or the
    scenario of the experiment, nor the number, the names, the types, the
    URLs, the headers or the timeouts of its probes: the default timeout
    [Probe.Validate] sets is set on the loop's copy of the probe and lost,
    so a probe configured without a timeout still has timeout 0 after a
    successful validation. *)
Theorem Experiment_Validate_keeps_timeouts (e : Experiment) :
  let e' := (Experiment_Validate e).2 in
  EName e' = EName e /\ Description e' = Description e /\ Scenario_ e' = Scenario_ e
  /\ Name <$> Probes (SteadyState_ e') = Name <$> Probes (SteadyState_ e)
  /\ Type_ <$> Probes (SteadyState_ e') = Type_ <$> Probes (SteadyState_ e)
  /\ Timeout <$> Probes (SteadyState_ e') = Timeout <$> Probes (SteadyState_ e)
  /\ (fun p => URL <$> HTTP p) <$> Probes (SteadyState_ e')
     = (fun p => URL <$> HTTP p) <$> Probes (SteadyState_ e)
  /\ (fun p => Headers <$> HTTP p) <$> Probes (SteadyState_ e')
     = (fun p => Headers <$> HTTP p) <$> Probes (SteadyState_ e).
Proof.
  intros e'. subst e'. unfold Experiment_Validate.
  destruct (decide (EName e = "")); [done|].
  destruct (decide (length (Probes (SteadyState_ e)) = 0%nat)); [done|].
  pose proof (validateProbes_keeps (Probes (SteadyState_ e)) 0) as Hkeep.
  destruct (validateProbes 0 (Probes (SteadyState_ e))) as [r ps]. cbn [snd] in Hkeep.
  destruct r as [err|]; [done|].
  by destruct (Scenario_Validate (Scenario_ e)).
Qed.

Lemma validateProbes_settles ps : forall i,
  (validateProbes i ps).1 = None ->
  Forall (fun p => wellFormedProbe p /\ defaultsApplied p) (validateProbes i ps).2.
Proof.
  induction ps as [|q ps IH]; intros i Hok; [by constructor|].
  cbn [validateProbes] in *.
  pose proof (Probe_Validate_ok_shape q) as Hshape.
  pose proof (Probe_Validate_ok_inv q) as Hinv.
  destruct (Probe_Validate q) as [[err|] q']; [discriminate|].
  destruct (Hshape eq_refl) as (h & Hh & Hq'). cbn [snd] in Hq'. subst q'.
  destruct (Hinv eq_refl) as (Hn & Ht & h0 & Hh0 & Hu).
  rewrite Hh in Hh0. injection Hh0 as <-.
  specialize (IH (S i)).
  destruct (validateProbes (S i) ps) as [r rest]. cbn [fst snd] in *.
  constructor; [|by apply IH]. cbn [HTTP]. split.
  - repeat split; [done | done |]. eexists. split; [reflexivity | done].
  - intros h' [= <-]. cbn. split.
    + by destruct (decide (Method h = "")).
    + by destruct (decide (ExpectedStatus h = 0)).
Qed.

Lemma validateProbes_settled ps : forall i,
  Forall (fun p => wellFormedProbe p /\ defaultsApplied p) ps ->
  validateProbes i ps = (None, ps).
Proof.
  induction ps as [|q ps IH]; intros i Hall; [reflexivity|].
  apply Forall_cons in Hall as [[Hwf Hdef] Hall].
  cbn [validateProbes].
  pose proof (Probe_Validate_ok_shape q) as Hshape.
  pose proof (proj2 (Probe_Validate_ok_iff q) Hwf) as Hok.
  destruct (Probe_Validate q) as [[err|] q']; [discriminate|].
  destruct (Hshape eq_refl) as (h & Hh & Hq'). cbn [snd] in Hq'. subst q'.
  rewrite (IH (S i) Hall). cbn [HTTP].
  destruct (Hdef h Hh) as [Hm Hs].
  destruct (decide (Method h = "")); [done|].
  destruct (decide (ExpectedStatus h = 0)); [done|].
  destruct q as [qn qty qh qto]. cbn in *. subst qh. by destruct h.
Qed.

(** X4: After a successful [Experiment.Validate] every probe has its name, the
    type "http", a URL, a method and a non-zero expected status, the
    scenario is supported and its interval positive and within the
    duration; and validating the result again accepts it and changes
    nothing. *)
Theorem Experiment_Validate_settles (e e' : Experiment) :
  Experiment_Validate e = (None, e') ->
  EName e' ≠ ""
  /\ Probes (SteadyState_ e') ≠ []
  /\ Forall (fun p => wellFormedProbe p /\ defaultsApplied p) (Probes (SteadyState_ e'))
  /\ wellFormedScenario (Scenario_ e')
  /\ Experiment_Validate e' = (None, e').
Proof.
  intros Hval.
  assert (Hok : (Experiment_Validate e).1 = None) by (by rewrite Hval).
  apply Experiment_Validate_accepts_iff in Hok as (Hname & Hne & _ & Hsc).
  unfold Experiment_Validate in Hval.
  destruct (decide (EName e = "")); [done|].
  destruct (decide (length (Probes (SteadyState_ e)) = 0%nat)); [discriminate|].
  pose proof (validateProbes_settles (Probes (SteadyState_ e)) 0) as Hset.
  pose proof (validateProbes_keeps (Probes (SteadyState_ e)) 0) as (Hnames & _).
  destruct (validateProbes 0 (Probes (SteadyState_ e))) as [[err|] ps]; [discriminate|].
  destruct (Scenario_Validate (Scenario_ e)) as [err|] eqn:Hsv; [discriminate|].
  injection Hval as <-. cbn [fst snd EName SteadyState_ Probes Scenario_] in *.
  assert (Hps : ps ≠ []).
  { intros ->. apply Hne. by destruct (Probes (SteadyState_ e)). }
  repeat split; try done.
  - by apply Hset.
  - apply Hsc.
  - apply Hsc.
  - apply Hsc.
  - apply Hsc.
  - unfold Experiment_Validate. cbn [EName SteadyState_ Probes Scenario_ Description].
    destruct (decide (EName e = "")); [done|].
    destruct (decide (length ps = 0%nat)) as [Hlen|_]; [by destruct ps|].
    rewrite (validateProbes_settled ps 0 (Hset eq_refl)). by rewrite Hsv.
Qed.

Lemma Experiment_Validate_settles_witness :
  let p := mkProbe "health" "http" (Some (mkHTTPProbe probeURL "" 0 ∅)) 0 in
  let p' := mkProbe "health" "http" (Some (mkHTTPProbe probeURL "GET" 200 ∅)) 0 in
  Experiment_Validate (mkExperiment "e" "" (mkSteadyState [p']) restartRandom)
  = (None, mkExperiment "e" "" (mkSteadyState [p']) restartRandom).
Proof.
  intros p p'.
  apply (Experiment_Validate_settles (mkExperiment "e" "" (mkSteadyState [p]) restartRandom)).
  reflexivity.
Defined.

(** X5: A probe of a checked configuration never fails for its type or for a
    missing http block: it passes exactly when its request can be built and
    is answered with the expected status, and fails otherwise with a request
    construction error, a transport error or an unexpected status that
    differs from the expected one. *)
Theorem executeProbe_of_checked_probe env (t slot : nat) (p : Probe) :
  wellFormedProbe p ->
  exists h, HTTP p = Some h
    /\ (executeProbe env t slot p = None
        <-> newRequestErr env (Method h) (URL h) = None
            /\ exists resp, clientDo env t slot (Timeout p) (probeRequest h) = DoResp resp
                 /\ StatusCode resp = ExpectedStatus h)
    /\ (forall err, executeProbe env t slot p = Some err ->
          (exists cause, err = ErrCreatingRequest cause
             /\ newRequestErr env (Method h) (URL h) = Some cause)
          \/ (exists cause, err = ErrExecutingRequest cause)
          \/ (exists got, err = ErrUnexpectedStatus got (ExpectedStatus h)
                /\ got ≠ ExpectedStatus h)).
Proof.
  intros (_ & Hty & h & Hh & _). exists h. split; [exact Hh|].
  unfold executeProbe. rewrite Hh.
  destruct (decide (Type_ p ≠ "http")); [done|].
  destruct (newRequestErr env (Method h) (URL h)) as [cause|].
  { split; [split; [discriminate | by intros [? _]]|].
    intros err [= <-]. left. by exists cause. }
  destruct (clientDo env t slot (Timeout p) (probeRequest h)) as [cause|resp].
  { split; [split; [discriminate | by intros (_ & ? & ? & _)]|].
    intros err [= <-]. right; left. by exists cause. }
  destruct (decide (StatusCode resp ≠ ExpectedStatus h)) as [Hne|Heq].
  - split; [split; [discriminate|]|].
    + by intros (_ & resp' & [= <-] & ?).
    + intros err [= <-]. right; right. by exists (StatusCode resp).
  - split; [|discriminate]. split; [intros _|done]. split; [done|].
    exists resp. split; [done|]. by destruct (decide (StatusCode resp = ExpectedStatus h)).
Qed.

Lemma executeProbe_of_checked_probe_witness :
  executeProbe (sampleEnv (always 200) 200 [web1] 1 DeadlineExceeded) 0 0 health = None.
Proof.
  set (env := sampleEnv (always 200) 200 [web1] 1 DeadlineExceeded).
  assert (Hwf : wellFormedProbe health).
  { repeat split; [discriminate|]. eexists. split; [reflexivity | discriminate]. }
  destruct (executeProbe_of_checked_probe env 0 0 health Hwf) as (h & Hh & Hiff & _).
  injection Hh as <-. apply Hiff. split; [reflexivity|].
  eexists. split; reflexivity.
Defined.

(** ** The Fly.io saboteur, in full *)

Lemma eligible_filter machines : eligible machines = toTarget <$> filter isUp machines.
Proof.
  induction machines as [|machine rest IH]; [reflexivity|].
  cbn [eligible]. rewrite filter_cons.
  destruct (decide (MState machine ≠ "started" ∧ MState machine ≠ "running")) as [[H1 H2]|Hn].
  - destruct (decide (isUp machine)) as [[?|?]|_]; [done|done|exact IH].
  - destruct (decide (isUp machine)) as [_|Hup].
    + rewrite fmap_cons. by rewrite IH.
    + exfalso. apply Hn. split; intros ?; apply Hup; [by left | by right].
Qed.

(** X6: When [ListTargets] of [FlySaboteur] succeeds, the listing was answered
    with status 200 and a body that decodes, and the targets are the
    machines in state "started" or "running", in the order of the listing,
    each with its id, name, state and region and no metadata; there is at
    least one; and the selector has no influence on the result. *)
Theorem Fly_ListTargets_returns_machines_up env (f : FlySaboteur) (t : nat)
    (app : string) (selector : gmap string string) (targets : list Target) :
  Fly_ListTargets env f t app selector = (targets, None) ->
  (exists resp machines,
     clientDo env t 0 (httpClientTimeout f)
       (mkRequest "GET" (machinesURL f app) (authHeaders f)) = DoResp resp
     /\ StatusCode resp = 200
     /\ decodeMachines env (Body resp) = inr machines
     /\ targets = toTarget <$> filter isUp machines)
  /\ targets ≠ []
  /\ Forall (fun target => State target = "started" \/ State target = "running") targets
  /\ (forall selector', Fly_ListTargets env f t app selector' = (targets, None)).
Proof.
  intros Hlist.
  assert (Hsel : forall selector', Fly_ListTargets env f t app selector' = (targets, None)).
  { intros selector'. exact Hlist. }
  assert (Hne : targets ≠ []).
  { pose proof (Fly_ListTargets_nonempty env f t app selector) as H.
    rewrite Hlist in H. by apply H. }
  unfold Fly_ListTargets in Hlist. cbn zeta in Hlist.
  destruct (newRequestErr env "GET" (machinesURL f app)); [discriminate|].
  destruct (clientDo env t 0 _ _) as [err|resp]; [discriminate|].
  destruct (decide (StatusCode resp ≠ StatusOK)) as [|Hst]; [discriminate|].
  destruct (decodeMachines env (Body resp)) as [err|machines] eqn:Hdec; [discriminate|].
  destruct (decide (length (eligible machines) = 0%nat)); [discriminate|].
  injection Hlist as <-. rewrite eligible_filter in *.
  split; [|split; [exact Hne|split; [|exact Hsel]]].
  - exists resp, machines. repeat split; try done.
    by destruct (decide (StatusCode resp = StatusOK)).
  - apply Forall_fmap, Forall_forall. intros machine Hin.
    by apply list_elem_of_filter in Hin as [Hup _].
Qed.

Lemma Fly_ListTargets_returns_machines_up_witness :
  let env := sampleEnv (always 200) 200 [web2; web1; web2] 1 DeadlineExceeded in
  Fly_ListTargets env fly 0 "shop" (<["region" := "ams"]> ∅) = ([toTarget web1], None).
Proof.
  intros env.
  apply (proj2 (proj2 (proj2 (Fly_ListTargets_returns_machines_up env fly 0 "shop" ∅
           [toTarget web1] eq_refl)))).
Defined.

(** X7: An attack through the Fly.io saboteur succeeds exactly when the
    scenario type is supported, the snapshot is not empty and the POST to
    the restart URL of the drawn target is answered with status 200 or
    202. *)
Theorem Fly_attack_succeeds_iff env (f : FlySaboteur) (sc : Scenario)
    (targets : list Target) (w : World) :
  (@executeAttack _ (FlySaboteur_Saboteur env) env (mkRunner f) sc targets w).1 = None
  <-> SType sc = "restart_random"
      /\ exists target resp,
           targets !! (randDraw env (length w) `mod` length targets)%nat = Some target
           /\ newRequestErr env "POST" (restartURL f (App (Selector_ sc)) (ID target)) = None
           /\ clientDo env (S (length w)) 0 (httpClientTimeout f)
                (mkRequest "POST" (restartURL f (App (Selector_ sc)) (ID target))
                   (authHeaders f)) = DoResp resp
           /\ (StatusCode resp = 200 \/ StatusCode resp = 202).
Proof.
  rewrite executeAttack_eq.
  destruct (decide (SType sc ≠ "restart_random")) as [Hty|Hty].
  { split; [discriminate | by intros [? _]]. }
  assert (SType sc = "restart_random") by (by destruct (decide (SType sc = "restart_random"))).
  destruct targets as [|first rest].
  { split; [discriminate | by intros (_ & ? & ? & ? & _)]. }
  cbn zeta.
  set (k := (randDraw env (length w) `mod` length (first :: rest))%nat).
  assert (Hk : (k < length (first :: rest))%nat).
  { apply Nat.mod_upper_bound. cbn. lia. }
  destruct (lookup_lt_is_Some_2 _ _ Hk) as [target Htarget].
  rewrite (nth_lookup_Some _ _ _ _ Htarget).
  rewrite length_app. cbn [length]. rewrite Nat.add_1_r.
  cbn [r_saboteur RestartMachine FlySaboteur_Saboteur].
  unfold Fly_RestartMachine. cbn zeta.
  destruct (newRequestErr env "POST" _) as [cause|] eqn:Hreq; cbn [fst].
  { split; [discriminate|]. intros (_ & target' & resp & Ht' & Hreq' & _).
    rewrite Htarget in Ht'. injection Ht' as <-. by rewrite Hreq in Hreq'. }
  destruct (clientDo env _ 0 _ _) as [cause|resp] eqn:Hdo; cbn [fst].
  { split; [discriminate|]. intros (_ & target' & resp & Ht' & _ & Hdo' & _).
    rewrite Htarget in Ht'. injection Ht' as <-. by rewrite Hdo in Hdo'. }
  unfold StatusOK, StatusAccepted.
  destruct (decide (StatusCode resp ≠ 200 ∧ StatusCode resp ≠ 202)) as [[H1 H2]|Hn]; cbn [fst].
  - split; [discriminate|]. intros (_ & target' & resp' & Ht' & _ & Hdo' & Hst).
    rewrite Htarget in Ht'. injection Ht' as <-. rewrite Hdo in Hdo'. injection Hdo' as <-.
    by destruct Hst.
  - split; [intros _|done]. split; [done|]. exists target, resp.
    repeat split; try done.
    destruct (decide (StatusCode resp = 200)); [by left|].
    destruct (decide (StatusCode resp = 202)); [by right|]. by destruct Hn.
Qed.

Lemma prefix_append (a b : string) : String.prefix a (a +:+ b) = true.
Proof.
  induction a as [|c a IH]; [by destruct b|].
  simpl. destruct (Ascii.ascii_dec c c) as [|Hn]; [exact IH | by destruct Hn].
Qed.

(** X8: [NewFlySaboteur] fails exactly when FLY_API_TOKEN is unset or empty.
    The saboteur it returns holds that token and sends no request but to
    the Fly Machines API and with the token as bearer: refusing every other
    request changes nothing to what [ListTargets] and [RestartMachine]
    return. *)
Theorem NewFlySaboteur_requests_are_authenticated (getenv : string -> string) :
  ((NewFlySaboteur getenv).1 = None <-> getenv "FLY_API_TOKEN" = "")
  /\ ((NewFlySaboteur getenv).2 = None <-> getenv "FLY_API_TOKEN" ≠ "")
  /\ (forall f, (NewFlySaboteur getenv).1 = Some f ->
        apiToken f = getenv "FLY_API_TOKEN"
        /\ forall env t app selector machineID,
             let guarded := guardedEnv (toFlyAPI (getenv "FLY_API_TOKEN")) env in
             Fly_ListTargets guarded f t app selector = Fly_ListTargets env f t app selector
             /\ Fly_RestartMachine guarded f t app machineID
                = Fly_RestartMachine env f t app machineID).
Proof.
  unfold NewFlySaboteur. cbn zeta.
  destruct (decide (getenv "FLY_API_TOKEN" = "")) as [Hempty|Hset]; cbn [fst snd].
  { split; [done|]. split; [split; [discriminate | done]|]. discriminate. }
  split; [split; [discriminate | done]|]. split; [done|].
  intros f [= <-]. split; [reflexivity|].
  intros env t app selector machineID. cbn zeta.
  unfold Fly_ListTargets, Fly_RestartMachine, guardedEnv. cbn zeta.
  cbn [newRequestErr clientDo decodeMachines].
  assert (Hauth : forall method url,
            String.prefix "https://api.machines.dev/v1/apps/" url = true ->
            toFlyAPI (getenv "FLY_API_TOKEN")
              (mkRequest method url
                 (authHeaders (mkFlySaboteur (getenv "FLY_API_TOKEN") (30 * Second)
                                 "https://api.machines.dev/v1"))) = true).
  { intros method url Hurl. unfold toFlyAPI, authenticated. cbn [ReqHeader ReqURL].
    rewrite Hurl, andb_true_r. apply bool_decide_eq_true.
    unfold authHeaders. cbn [apiToken].
    rewrite lookup_insert_ne by discriminate. by rewrite lookup_insert_eq. }
  rewrite !Hauth; [done| |].
  - exact (prefix_append "https://api.machines.dev/v1/apps/"
             (app +:+ "/machines/" +:+ machineID +:+ "/restart")).
  - exact (prefix_append "https://api.machines.dev/v1/apps/" (app +:+ "/machines")).
Qed.

Lemma NewFlySaboteur_requests_are_authenticated_witness :
  let getenv := fun name : string => if decide (name = "FLY_API_TOKEN") then "token" else "" in
  let env := sampleEnv (always 200) 200 [web1] 1 DeadlineExceeded in
  Fly_ListTargets (guardedEnv (toFlyAPI "token") env) fly 0 "shop" ∅
  = Fly_ListTargets env fly 0 "shop" ∅.
Proof.
  intros getenv env.
  apply (proj2 (proj2 (proj2 (NewFlySaboteur_requests_are_authenticated getenv)) fly eq_refl)
           env 0%nat "shop" ∅ "m1").
Defined.

(** ** The steady-state validator, in numbers *)

Lemma bind_lengths env t (tasks : list (nat * Probe)) :
  (length (tasks ≫= probeFailure env t) + length (tasks ≫= probePass env t))%nat
  = length tasks.
Proof.
  induction tasks as [|task rest IH]; [reflexivity|].
  rewrite !bind_cons, !length_app. unfold probeFailure at 1, probePass at 1.
  destruct (executeProbe env t task.1 task.2); cbn [length]; lia.
Qed.

(** X9: [RunProbes] accounts for every probe exactly once: the failures it
    returns and the successes it logs are, in some order, those of the
    probes taken one by one, so that their numbers add up to the number of
    probes; the order goroutines finish in changes the order of the entries
    and nothing else. *)
Theorem RunProbes_accounts_for_every_probe env (probes : list Probe) (w : World) :
  let t := length w in
  let res := RunProbes env probes w in
  exists es added,
    res.1 = match es with [] => None | _ => Some (ErrProbesFailed es) end
    /\ res.2 = w ++ added
    /\ es ≡ₚ imap pair probes ≫= probeFailure env t
    /\ added ≡ₚ imap pair probes ≫= probePass env t
    /\ (length es + length added)%nat = length probes.
Proof.
  intros t res. subst res. rewrite RunProbes_spec. fold t.
  set (tasks := completionOrder _ _ _ _).
  assert (Hperm : tasks ≡ₚ imap pair probes).
  { apply completionOrder_perm, length_imap. }
  exists (tasks ≫= probeFailure env t), (tasks ≫= probePass env t).
  split; [cbn [fst]; by destruct (tasks ≫= probeFailure env t)|]. split; [reflexivity|].
  split; [by rewrite Hperm|]. split; [by rewrite Hperm|].
  rewrite bind_lengths. rewrite Hperm. apply length_imap.
Qed.

Lemma RunProbes_error_shape env probes w err :
  (RunProbes env probes w).1 = Some err -> namesFailures probes err.
Proof.
  rewrite RunProbes_spec. cbn [fst]. intros Herr.
  pose proof (elem_of_failures env (length w) probes) as Hfail.
  destruct (_ ≫= probeFailure env (length w)) as [|e0 es]; [discriminate|].
  injection Herr as <-. exists (e0 :: es). split; [reflexivity|]. split; [done|].
  apply Forall_forall. intros e (slot & p & cause & Hp & _ & ->)%Hfail.
  exists p, cause. split; [|reflexivity]. apply list_elem_of_lookup. eauto.
Qed.

(** ** The scenario loop, in numbers *)

Lemma countIf_app f w1 w2 : countIf f (w1 ++ w2) = (countIf f w1 + countIf f w2)%nat.
Proof. unfold countIf. by rewrite List.filter_app, length_app. Qed.

Lemma probe_logs_count (f : event -> bool) added :
  (forall name, f (EvLog (LogProbePassed name)) = false) ->
  Forall (fun ev => isProbePassed ev = true) added ->
  countIf f added = 0%nat /\ sleptFor added = 0.
Proof.
  intros Hf. induction 1 as [|ev added Hev _ [IH1 IH2]]; [done|].
  destruct ev as [[]| | | |]; try discriminate.
  unfold countIf in *. cbn. by rewrite Hf.
Qed.

Section Counting.
Context {Sab : Type} {HS : Saboteur Sab}.
Variable env : Env.
Variable r : Runner Sab.

Lemma scenarioTick_counts e targets c w :
  exists added,
    (scenarioTick env r e targets c w).2 = w ++ added
    /\ (countIf isRestartOk added <= countIf isAttack added <= 1)%nat
    /\ sleptFor added = settleDelay * Z.of_nat (countIf isRestartOk added)
    /\ (forall c', (scenarioTick env r e targets c w).1 = Continue c' ->
          c' = (c + countIf isRestartOk added)%nat)
    /\ (SType (Scenario_ e) = "restart_random" -> targets ≠ [] ->
          countIf isAttack added = 1%nat).
Proof.
  rewrite scenarioTick_eq, executeAttack_eq.
  destruct (decide (SType (Scenario_ e) ≠ "restart_random")).
  { eexists. split; [reflexivity|]. cbn. repeat split; try lia; try done.
    intros c' [= <-]. lia. }
  destruct targets as [|first rest].
  { eexists. split; [reflexivity|]. cbn. repeat split; try lia; try done.
    intros c' [= <-]. lia. }
  cbn zeta. destruct (RestartMachine _ _ _ _) as [cause|].
  { eexists. split; [by rewrite <- app_assoc|]. cbn. repeat split; try lia.
    intros c' [= <-]. lia. }
  match goal with
  | |- context [RunProbes env ?ps ?w0] =>
      destruct (RunProbes_emits env ps w0) as (passed & E & F);
      destruct (RunProbes env ps w0) as [[err|] w2]
  end; cbn [fst snd] in *; subst w2;
    destruct (probe_logs_count isAttack passed ltac:(done) F) as [Ha _];
    destruct (probe_logs_count isRestartOk passed ltac:(done) F) as [Hr Hs].
  - eexists. split; [by rewrite <- !app_assoc|].
    rewrite !countIf_app, !sleptFor_app, Ha, Hr, Hs. cbn. unfold settleDelay.
    repeat split; try lia. discriminate.
  - eexists. split; [by rewrite <- !app_assoc|].
    rewrite !countIf_app, !sleptFor_app, Ha, Hr, Hs. cbn. unfold settleDelay.
    repeat split; try lia. intros c' [= <-]. lia.
Qed.

Lemma scenarioLoop_counts e targets ticks : forall c w,
  exists added,
    (scenarioLoop env r ticks e targets c w).2 = w ++ added
    /\ (countIf isRestartOk added <= countIf isAttack added <= ticks)%nat
    /\ sleptFor added = settleDelay * Z.of_nat (countIf isRestartOk added)
    /\ ((scenarioLoop env r ticks e targets c w).1 = None ->
          (exists before,
             added = before ++ [EvSelect (CaseDone (doneCause env));
                                EvLog (LogDurationCompleted (c + countIf isRestartOk added))])
          /\ (SType (Scenario_ e) = "restart_random" -> targets ≠ [] ->
                countIf isAttack added = ticks)).
Proof.
  induction ticks as [|ticks IH]; intros c w.
  - rewrite scenarioLoop_done. eexists. split; [reflexivity|]. cbn.
    repeat split; try lia. exists []. by rewrite Nat.add_0_r.
  - rewrite scenarioLoop_tick.
    destruct (scenarioTick_counts e targets c (w ++ [EvSelect CaseTick]))
      as (added1 & E1 & Hle1 & Hs1 & Hc1 & Hall1).
    destruct (scenarioTick env r e targets c (w ++ [EvSelect CaseTick])) as [[c1|err] w1];
      cbn [fst snd] in *; subst w1.
    + specialize (Hc1 c1 eq_refl). subst c1.
      destruct (IH (c + countIf isRestartOk added1)%nat ((w ++ [EvSelect CaseTick]) ++ added1))
        as (added2 & E2 & Hle2 & Hs2 & Hdone).
      exists (EvSelect CaseTick :: added1 ++ added2).
      split; [rewrite E2; by rewrite <- !app_assoc|].
      assert (Hr : countIf isRestartOk (EvSelect CaseTick :: added1 ++ added2)
                   = (countIf isRestartOk added1 + countIf isRestartOk added2)%nat).
      { by rewrite <- countIf_app. }
      assert (Ha : countIf isAttack (EvSelect CaseTick :: added1 ++ added2)
                   = (countIf isAttack added1 + countIf isAttack added2)%nat).
      { by rewrite <- countIf_app. }
      rewrite Hr, Ha. split; [lia|]. split.
      { cbn [sleptFor]. rewrite sleptFor_app, Hs1, Hs2. lia. }
      intros Hnone. destruct (Hdone Hnone) as [(before & Hadd) Hall2]. split.
      * exists (EvSelect CaseTick :: added1 ++ before).
        rewrite Nat.add_assoc.
        remember (countIf isRestartOk added2) as n2 eqn:Hn2. clear Hn2.
        rewrite Hadd. by rewrite app_comm_cons, app_assoc.
      * intros Hty Hne. rewrite (Hall1 Hty Hne), (Hall2 Hty Hne). lia.
    + exists (EvSelect CaseTick :: added1). split; [by rewrite <- app_assoc|].
      change (EvSelect CaseTick :: added1) with ([EvSelect CaseTick] ++ added1).
      rewrite !countIf_app, sleptFor_app. cbn. split; [lia|]. split; [lia|]. discriminate.
Qed.

(** X10: Whatever the saboteur, [executeScenario] calls [RestartMachine] at most
    once per tick taken, sleeps the settle delay once per call that
    succeeded and never otherwise, and, when it returns nil, its last log
    line gives as the number of attacks executed the number of calls that
    succeeded. *)
Theorem executeScenario_counts_attacks (e : Experiment) (w : World) :
  let res := executeScenario env r e w in
  exists added,
    res.2 = w ++ added
    /\ (countIf isRestartOk added <= countIf isAttack added <= ticksBeforeDone env)%nat
    /\ sleptFor added = settleDelay * Z.of_nat (countIf isRestartOk added)
    /\ (res.1 = Returned None ->
          exists before,
            added = before ++ [EvSelect (CaseDone (doneCause env));
                               EvLog (LogDurationCompleted (countIf isRestartOk added))]).
Proof.
  intros res. subst res. rewrite executeScenario_eq. cbn zeta.
  destruct (ListTargets _ _ _ _).2 as [err|].
  { eexists. split; [by rewrite <- app_assoc|]. cbn. repeat split; try lia. discriminate. }
  destruct (decide _).
  { eexists. split; [by rewrite <- app_assoc|]. cbn. repeat split; try lia. discriminate. }
  match goal with
  | |- context [scenarioLoop env r ?n e ?ts 0 ?w0] =>
      destruct (scenarioLoop_counts e ts n 0 w0) as (added & E & Hle & Hs & Hdone);
      destruct (scenarioLoop env r n e ts 0 w0) as [o w3]
  end; cbn [fst snd] in *. subst w3.
  match goal with
  | |- context [((w ++ [?a]) ++ [?b; ?c]) ++ added] =>
      exists ([a; b; c] ++ added); split; [by rewrite <- !app_assoc|];
      rewrite !countIf_app, sleptFor_app;
      change (countIf isRestartOk [a; b; c]) with 0%nat;
      change (countIf isAttack [a; b; c]) with 0%nat;
      change (sleptFor [a; b; c]) with 0;
      split; [lia|]; split; [lia|];
      intros [= ->]; destruct (Hdone eq_refl) as [(before & Hadded) _];
      exists ([a; b; c] ++ before)
  end.
  rewrite Nat.add_0_l.
  remember (countIf isRestartOk added) as total eqn:Htotal. clear Htotal.
  rewrite Hadded. by rewrite app_assoc.
Qed.
End Counting.

(** ** Which machines are attacked, and which attacks are given up *)

Lemma Forall_count_zero (P : event -> Prop) (f : event -> bool) added :
  (forall ev, P ev -> f ev = false) -> Forall P added -> countIf f added = 0%nat.
Proof.
  intros Hf. induction 1 as [|ev added Hev _ IH]; [reflexivity|].
  unfold countIf in *. cbn. by rewrite (Hf ev Hev).
Qed.

Section Attacks.
Context {Sab : Type} {HS : Saboteur Sab}.
Variable env : Env.
Variable r : Runner Sab.

Lemma scenarioTick_targets e targets c :
  emitsOnly (fun ev => onListed (App (Selector_ (Scenario_ e))) targets ev
                       /\ notSkipped (Scenario_ e) targets ev)
    (scenarioTick env r e targets c).
Proof.
  intros w. rewrite scenarioTick_eq, executeAttack_eq.
  destruct (decide (SType (Scenario_ e) ≠ "restart_random")) as [Hty|Hty].
  { eexists. split; [reflexivity|]. repeat constructor; [done | discriminate]. }
  destruct targets as [|first rest].
  { eexists. split; [reflexivity|]. repeat constructor; [discriminate | done]. }
  cbn zeta.
  set (target := nth _ (first :: rest) first).
  assert (Hin : target ∈ first :: rest).
  { assert (Hk : (randDraw env (length w) `mod` length (first :: rest)
                  < length (first :: rest))%nat).
    { apply Nat.mod_upper_bound. cbn. lia. }
    destruct (lookup_lt_is_Some_2 _ _ Hk) as [x Hx].
    subst target. rewrite (nth_lookup_Some _ _ _ _ Hx).
    apply list_elem_of_lookup. eauto. }
  destruct (RestartMachine _ _ _ _) as [cause|].
  { eexists. split; [by rewrite <- app_assoc|].
    repeat constructor; try discriminate; try done. by exists target. }
  match goal with
  | |- context [RunProbes env ?ps ?w0] =>
      destruct (RunProbes_emits env ps w0) as (passed & E & F);
      destruct (RunProbes env ps w0) as [[err|] w2]
  end; cbn [fst snd] in *; subst w2.
  all: eexists; (split; [by rewrite <- !app_assoc|]).
  all: repeat first [ apply Forall_app; split | apply Forall_cons; split
                    | apply Forall_nil_2 ];
         try (repeat constructor; try discriminate; try done; by exists target).
  all: eapply Forall_impl; [exact F|];
         intros [[]| | | |]; try discriminate; intros _;
         repeat constructor; discriminate.
Qed.

Lemma scenarioLoop_targets e targets ticks : forall c,
  emitsOnly (fun ev => onListed (App (Selector_ (Scenario_ e))) targets ev
                       /\ notSkipped (Scenario_ e) targets ev)
    (scenarioLoop env r ticks e targets c).
Proof.
  induction ticks as [|ticks IH]; intros c; cbn [scenarioLoop]; unfold log.
  - emits; repeat constructor; discriminate.
  - apply emitsOnly_bind; [apply emitsOnly_emit; repeat constructor; discriminate|].
    intros _. apply emitsOnly_bind; [apply scenarioTick_targets|].
    intros [c1|err]; [apply IH | emits].
Qed.

(** X11: [executeScenario] calls [ListTargets] once, right after its opening log
    line, and never again; every later call of [RestartMachine] is for the
    application of the selector and for a machine of the list that call
    returned. *)
Theorem executeScenario_attacks_listed_targets (e : Experiment) (w : World) :
  let sc := Scenario_ e in
  let app := App (Selector_ sc) in
  let listed := ListTargets (r_saboteur r) (S (length w)) app ∅ in
  exists rest,
    (executeScenario env r e w).2
    = w ++ [EvLog (LogExecuting (SType sc) (Duration sc) (Interval sc));
            EvListTargets app listed] ++ rest
    /\ Forall (onListed app listed.1) rest.
Proof.
  intros sc app listed. rewrite executeScenario_eq. cbn zeta. fold sc app.
  rewrite length_app. cbn [length]. rewrite Nat.add_1_r. fold listed.
  destruct listed.2 as [err|].
  { exists []. split; [by rewrite <- app_assoc | constructor]. }
  destruct (decide (Interval sc <= 0)).
  { exists [EvLog (LogFound (length listed.1))].
    split; [by rewrite <- app_assoc | by repeat constructor]. }
  match goal with
  | |- context [scenarioLoop env r ?n e ?ts 0 ?w0] =>
      destruct (scenarioLoop_targets e ts n 0 w0) as (added & E & F);
      destruct (scenarioLoop env r n e ts 0 w0) as [o w3]
  end; cbn [fst snd] in *. subst w3.
  exists (EvLog (LogFound (length listed.1)) :: added).
  split; [by rewrite <- !app_assoc|].
  constructor; [done|]. eapply Forall_impl; [exact F|]. by intros ev [? _].
Qed.
End Attacks.

(** X12: With the Fly.io saboteur and the supported scenario type no attack is
    given up before the provider is called: the log never reports an
    unsupported scenario type or a missing target, and a scenario that
    runs to its end has called [RestartMachine] exactly once per tick. *)
Theorem Fly_scenario_attacks_on_every_tick env (f : FlySaboteur) (e : Experiment) (w : World) :
  SType (Scenario_ e) = "restart_random" ->
  let res := @executeScenario _ (FlySaboteur_Saboteur env) env (mkRunner f) e w in
  exists added,
    res.2 = w ++ added
    /\ countIf isAttackSkippedLog added = 0%nat
    /\ (res.1 = Returned None -> countIf isAttack added = ticksBeforeDone env).
Proof.
  intros Hty res. subst res. rewrite executeScenario_eq. cbn zeta.
  cbn [r_saboteur ListTargets FlySaboteur_Saboteur].
  match goal with
  | |- context [Fly_ListTargets env f ?t ?a ?s] =>
      pose proof (Fly_ListTargets_nonempty env f t a s) as Hne;
      set (listed := Fly_ListTargets env f t a s) in *
  end.
  destruct listed.2 as [err|].
  { eexists. split; [by rewrite <- app_assoc|]. split; [reflexivity | discriminate]. }
  specialize (Hne eq_refl).
  destruct (decide _).
  { eexists. split; [by rewrite <- app_assoc|]. split; [reflexivity | discriminate]. }
  match goal with
  | |- context [scenarioLoop env ?r0 ?n e ?ts 0 ?w0] =>
      destruct (scenarioLoop_targets (HS := FlySaboteur_Saboteur env) env r0 e ts n 0 w0)
        as (added & E & F);
      destruct (scenarioLoop_counts (HS := FlySaboteur_Saboteur env) env r0 e ts n 0 w0)
        as (added' & E' & _ & _ & Hdone);
      destruct (scenarioLoop env r0 n e ts 0 w0) as [o w3]
  end; cbn [fst snd] in *. subst w3.
  apply app_inv_head in E'. subst added'.
  match goal with
  | |- context [((w ++ [?a]) ++ [?b; ?c]) ++ added] =>
      exists ([a; b; c] ++ added); split; [by rewrite <- !app_assoc|];
      rewrite !countIf_app;
      change (countIf isAttackSkippedLog [a; b; c]) with 0%nat;
      change (countIf isAttack [a; b; c]) with 0%nat
  end.
  split.
  - rewrite Nat.add_0_l. eapply Forall_count_zero; [|exact F].
    intros ev [_ [H1 H2]]. destruct ev as [[| | | | | | | | | | |err| | |]| | | |]; try reflexivity.
    destruct err; try reflexivity.
    + by specialize (H1 Hty ty).
    + by specialize (H2 Hne).
  - intros [= ->]. rewrite Nat.add_0_l. by apply (proj2 (Hdone eq_refl)).
Qed.

Lemma Fly_scenario_attacks_on_every_tick_witness :
  let env := sampleEnv (always 200) 500 [web1] 3 DeadlineExceeded in
  countIf isAttack (runScenario env experiment).2 = 3%nat.
Proof.
  intros env. unfold runScenario.
  destruct (Fly_scenario_attacks_on_every_tick env fly experiment [] eq_refl)
    as (added & E & _ & Hcount).
  cbn [List.app] in E. rewrite E. apply Hcount.
  vm_compute. reflexivity.
Defined.

(** ** How [RunExperiment] ends *)

Section Endings.
Context {Sab : Type} {HS : Saboteur Sab}.
Variable env : Env.
Variable r : Runner Sab.

Lemma scenarioLoop_error_shape e targets ticks : forall c w err,
  (scenarioLoop env r ticks e targets c w).1 = Some err ->
  exists v, err = ErrSteadyStateLost v /\ namesFailures (Probes (SteadyState_ e)) v.
Proof.
  induction ticks as [|ticks IH]; intros c w err.
  - rewrite scenarioLoop_done. discriminate.
  - rewrite scenarioLoop_tick, scenarioTick_eq.
    destruct (executeAttack env r (Scenario_ e) targets _) as [[cause|] w1].
    + apply IH.
    + pose proof (RunProbes_error_shape env (Probes (SteadyState_ e))
                    (w1 ++ [EvLog LogValidatingAfterAttack])) as Hshape.
      destruct (RunProbes env _ _) as [[v|] w2]; cbn [fst] in *.
      * intros [= <-]. exists v. split; [reflexivity | by apply Hshape].
      * apply IH.
Qed.

Lemma executeScenario_outcome e w :
  match (executeScenario env r e w).1 with
  | Panicked msg =>
      msg = "non-positive interval for NewTicker" /\ Interval (Scenario_ e) <= 0
  | Returned (Some err) =>
      (exists cause, err = ErrListingTargets cause)
      \/ (exists v, err = ErrSteadyStateLost v /\ namesFailures (Probes (SteadyState_ e)) v)
  | Returned None => 0 < Interval (Scenario_ e)
  end.
Proof.
  rewrite executeScenario_eq. cbn zeta.
  destruct (ListTargets _ _ _ _).2 as [cause|]; [left; by exists cause|].
  destruct (decide (Interval (Scenario_ e) <= 0)); [done|].
  match goal with
  | |- context [scenarioLoop env r ?n e ?ts 0 ?w0] =>
      pose proof (scenarioLoop_error_shape e ts n 0 w0) as Hshape;
      destruct (scenarioLoop env r n e ts 0 w0) as [[err|] w3]
  end; cbn [fst] in *; [right; by apply Hshape | lia].
Qed.

(** X13: [RunExperiment] panics only in [time.NewTicker], on an interval that is
    not positive, and then before any tick or attack; it does so exactly
    when the first validation passes and the targets are listed with such an
    interval.  With a positive interval, as [Scenario.Validate] requires, it
    always returns. *)
Theorem RunExperiment_panics_iff (e : Experiment) (w : World) (msg : string) :
  let sc := Scenario_ e in
  let pre := RunProbes env (Probes (SteadyState_ e))
               (w ++ [EvLog (LogStarting (EName e)); EvLog (LogDescription (Description e));
                      EvLog LogValidating]) in
  let listed := ListTargets (r_saboteur r)
                  (length (pre.2 ++ [EvLog LogValidated;
                                     EvLog (LogExecuting (SType sc) (Duration sc) (Interval sc))]))
                  (App (Selector_ sc)) ∅ in
  ((RunExperiment env r e w).1 = Panicked msg
   <-> msg = "non-positive interval for NewTicker" /\ Interval sc <= 0
       /\ pre.1 = None /\ listed.2 = None)
  /\ ((RunExperiment env r e w).1 = Panicked msg ->
      (RunExperiment env r e w).2
      = pre.2 ++ [EvLog LogValidated;
                  EvLog (LogExecuting (SType sc) (Duration sc) (Interval sc));
                  EvListTargets (App (Selector_ sc)) listed;
                  EvLog (LogFound (length listed.1))])
  /\ (0 < Interval sc -> (RunExperiment env r e w).1 ≠ Panicked msg).
Proof.
  intros sc pre listed.
  assert (Hrun : (RunExperiment env r e w).1 = Panicked msg
                 -> msg = "non-positive interval for NewTicker" /\ Interval sc <= 0
                    /\ pre.1 = None /\ listed.2 = None
                    /\ (RunExperiment env r e w).2
                       = pre.2 ++ [EvLog LogValidated;
                           EvLog (LogExecuting (SType sc) (Duration sc) (Interval sc));
                           EvListTargets (App (Selector_ sc)) listed;
                           EvLog (LogFound (length listed.1))]).
  { subst listed. rewrite RunExperiment_eq. cbn zeta. fold pre.
    destruct pre as [[err|] w1]; [discriminate|]. cbn [fst snd].
    rewrite executeScenario_eq. cbn zeta. fold sc.
    rewrite <- !app_assoc. cbn [List.app].
    destruct (ListTargets _ _ _ _).2 as [cause|]; [discriminate|].
    destruct (decide (Interval sc <= 0)).
    - cbn [fst snd]. by intros [= <-].
    - destruct (scenarioLoop _ _ _ _ _ _ _) as [[err|] w3]; [discriminate|].
      by destruct (RunProbes _ _ _) as [[err|] w4]. }
  split; [split|split].
  - intros H. by destruct (Hrun H) as (? & ? & ? & ? & _).
  - intros (-> & Hint & Hpre & Hlisted). subst listed.
    rewrite RunExperiment_eq. cbn zeta. fold pre.
    destruct pre as [[err|] w1]; [discriminate|]. cbn [fst snd] in *.
    rewrite executeScenario_eq. cbn zeta. fold sc.
    rewrite <- !app_assoc in *. cbn [List.app] in *. rewrite Hlisted.
    by destruct (decide (Interval sc <= 0)).
  - intros H. by destruct (Hrun H) as (_ & _ & _ & _ & ?).
  - intros Hpos H. destruct (Hrun H) as (_ & ? & _). lia.
Qed.

(** X14: Every error [RunExperiment] returns names the step that failed: the
    first validation, the target listing, the validation after an attack or
    the last validation; and for a validation it carries a non-empty list
    of failures, each naming a probe of the experiment. *)
Theorem RunExperiment_error_names_the_step (e : Experiment) (w : World) (err : error) :
  (RunExperiment env r e w).1 = Returned (Some err) ->
  let probes := Probes (SteadyState_ e) in
  (exists v, err = ErrSteadyStateValidation v /\ namesFailures probes v)
  \/ (exists cause, err = ErrScenarioExecution (ErrListingTargets cause))
  \/ (exists v, err = ErrScenarioExecution (ErrSteadyStateLost v) /\ namesFailures probes v)
  \/ (exists v, err = ErrSteadyStateAfterChaos v /\ namesFailures probes v).
Proof.
  intros Hrun probes. rewrite RunExperiment_eq in Hrun. cbn zeta in Hrun.
  fold probes in Hrun.
  match type of Hrun with
  | context [RunProbes env probes ?w0] =>
      pose proof (RunProbes_error_shape env probes w0) as Hpre;
      destruct (RunProbes env probes w0) as [[v|] w1]
  end; cbn [fst] in *.
  { injection Hrun as <-. left. exists v. split; [reflexivity | by apply Hpre]. }
  pose proof (executeScenario_outcome e (w1 ++ [EvLog LogValidated])) as Hscen.
  destruct (executeScenario env r e (w1 ++ [EvLog LogValidated])) as [[[serr|]|msg] w2];
    cbn [fst] in *; [| |discriminate].
  - injection Hrun as <-. destruct Hscen as [(cause & ->)|(v & -> & Hv)].
    + right; left. by exists cause.
    + right; right; left. by exists v.
  - match type of Hrun with
    | context [RunProbes env probes ?w0] =>
        pose proof (RunProbes_error_shape env probes w0) as Hpost;
        destruct (RunProbes env probes w0) as [[v|] w3]
    end; cbn [fst] in *; [|discriminate].
    injection Hrun as <-. right; right; right. exists v. split; [reflexivity | by apply Hpost].
Qed.
End Endings.

Lemma RunExperiment_error_names_the_step_witness :
  namesFailures [health]
    (ErrProbesFailed [ErrProbeFailed "health" (ErrUnexpectedStatus 500 200)]).
Proof.
  set (env := sampleEnv (until 10) 200 [web1] 0 DeadlineExceeded).
  destruct (RunExperiment_error_names_the_step (HS := FlySaboteur_Saboteur env)
              env (mkRunner fly) experiment []
              (ErrSteadyStateAfterChaos
                 (ErrProbesFailed [ErrProbeFailed "health" (ErrUnexpectedStatus 500 200)])))
    as [(v & Hv & _)|[(c & Hc)|[(v & Hv & _)|(v & Hv & Hnames)]]];
    [vm_compute; reflexivity | discriminate | discriminate | discriminate |].
  injection Hv as <-. exact Hnames.
Defined.

(** ** Loading a configuration *)

(** X15: [loadExperiment] returns an experiment exactly when the file is read,
    parsed and accepted by [Experiment.Validate], and then returns the
    experiment as the validation leaves it; it returns an experiment or an
    error, never both.  Such an experiment never makes [RunExperiment]
    panic, and no attack on it is ever given up for an unsupported scenario
    type. *)
Theorem loadExperiment_returns_a_runnable_experiment
    (readFile : string -> error + string) (unmarshal : string -> error + Experiment)
    (filename : string) :
  let res := loadExperiment readFile unmarshal filename in
  (forall e', res.1 = Some e'
     <-> exists data e, readFile filename = inr data /\ unmarshal data = inr e
           /\ Experiment_Validate e = (None, e'))
  /\ (res.1 = None <-> res.2 ≠ None)
  /\ (forall e', res.1 = Some e' ->
        forall (Sab : Type) (HS : Saboteur Sab) env (r : Runner Sab) (w : World),
          (forall msg, (RunExperiment env r e' w).1 ≠ Panicked msg)
          /\ exists added, (RunExperiment env r e' w).2 = w ++ added
               /\ forall ty, EvLog (LogAttackFailed (ErrUnsupportedScenarioType ty)) ∉ added).
Proof.
  intros res.
  assert (Hiff : forall e', res.1 = Some e'
     <-> exists data e, readFile filename = inr data /\ unmarshal data = inr e
           /\ Experiment_Validate e = (None, e')).
  { intros e'. subst res. unfold loadExperiment.
    destruct (readFile filename) as [err|data] eqn:Hread.
    { split; [discriminate | by intros (? & ? & ? & _)]. }
    destruct (unmarshal data) as [err|e] eqn:Hparse.
    { split; [discriminate|]. intros (data' & e & Hd & He & _).
      injection Hd as <-. congruence. }
    destruct (Experiment_Validate e) as [[err|] e1] eqn:Hval; cbn [fst].
    - split; [discriminate|]. intros (data' & e0 & Hd & He & Hv).
      injection Hd as <-. congruence.
    - split.
      + intros [= <-]. by exists data, e.
      + intros (data' & e0 & Hd & He & Hv). injection Hd as <-. congruence. }
  split; [exact Hiff|]. split.
  - subst res. unfold loadExperiment.
    destruct (readFile filename) as [err|data]; [done|].
    destruct (unmarshal data) as [err|e]; [done|].
    destruct (Experiment_Validate e) as [[err|] e1]; cbn [fst snd]; [done|].
    split; [discriminate | done].
  - intros e' (data & e & _ & _ & Hval)%Hiff Sab HS env r w.
    destruct (Experiment_Validate_settles e e' Hval) as (_ & _ & _ & Hsc & _).
    destruct Hsc as (Hty & _ & Hpos & _). split.
    + intros msg. by apply (proj2 (proj2 (RunExperiment_panics_iff env r e' w msg))).
    + assert (Hloop : forall targets ticks c,
                emitsOnly (fun ev => forall ty,
                             ev ≠ EvLog (LogAttackFailed (ErrUnsupportedScenarioType ty)))
                  (scenarioLoop env r ticks e' targets c)).
      { intros targets ticks c. eapply emitsOnly_weaken; [|apply scenarioLoop_targets].
        intros ev [_ [H _]]. by apply H. }
      assert (Hrun : emitsOnly (fun ev => forall ty,
                        ev ≠ EvLog (LogAttackFailed (ErrUnsupportedScenarioType ty)))
                (RunExperiment env r e')).
      { unfold RunExperiment, executeScenario, log. cbn zeta.
        repeat first
          [ apply emitsOnly_ret | apply emitsOnly_clock
          | apply emitsOnly_emit; discriminate
          | apply Hloop
          | eapply emitsOnly_weaken; [|apply RunProbes_emits];
            intros [[]| | | |]; discriminate
          | apply emitsOnly_bind; [|intros ?]
          | match goal with
            | |- emitsOnly _ (match ?x with _ => _ end) => destruct x
            end ]. }
      destruct (Hrun w) as (added & E & F). exists added. split; [exact E|].
      intros ty Hin. eapply Forall_forall in F; [|exact Hin]. by apply (F ty).
Qed.

Lemma loadExperiment_returns_a_runnable_experiment_witness :
  let readFile := fun name : string => inr "name: restart-web" : error + string in
  let unmarshal := fun data : string => inr experiment : error + Experiment in
  (run (sampleEnv (always 200) 200 [web1] 2 DeadlineExceeded) experiment).1
  ≠ Panicked "non-positive interval for NewTicker".
Proof.
  intros readFile unmarshal. unfold run.
  apply (proj2 (proj2 (loadExperiment_returns_a_runnable_experiment
                         readFile unmarshal "experiment.yaml")) experiment eq_refl).
Defined.

(** ** Runs that show the cases *)

Lemma executeScenario_counts_attacks_witness :
  exists before,
    (runScenario (sampleEnv (always 200) 200 [web1] 2 DeadlineExceeded) experiment).2
    = before ++ [EvSelect (CaseDone DeadlineExceeded); EvLog (LogDurationCompleted 2)].
Proof.
  set (env := sampleEnv (always 200) 200 [web1] 2 DeadlineExceeded).
  destruct (executeScenario_counts_attacks (HS := FlySaboteur_Saboteur env)
              env (mkRunner fly) experiment [])
    as (added & E & _ & _ & Hdone).
  unfold runScenario. cbn [List.app] in E. rewrite E.
  destruct (Hdone eq_refl) as (before & Hadded). exists before.
  rewrite Hadded at 1. rewrite <- E. reflexivity.
Defined.

Lemma RunExperiment_panics_iff_witness :
  (run (sampleEnv (always 200) 200 [web1] 2 DeadlineExceeded)
     (mkExperiment "e" "" (mkSteadyState [health])
        (mkScenario "restart_random" (mkSelector "shop") (10 * Second) 0))).1
  = Panicked "non-positive interval for NewTicker".
Proof.
  set (env := sampleEnv (always 200) 200 [web1] 2 DeadlineExceeded).
  unfold run.
  apply (proj1 (RunExperiment_panics_iff (HS := FlySaboteur_Saboteur env) env (mkRunner fly)
                  _ [] _)).
  split; [reflexivity|]. split; [cbn; lia|].
  split; vm_compute; reflexivity.
Defined.
